(** * procman / goreman: loading the Procfile, defaults and the start command

    A shallow embedding of [src/goreman/goreman.go] and [src/goreman/tags.go].
    Go strings are byte sequences and are modelled as [string] (a list of
    8-bit [ascii]); [int] is modelled as [Z]; [uint] as [Z] reduced modulo
    [2^64] (64-bit targets); the package-level variables [procs] and
    [maxProcNameLength] as the record [Globals] that is threaded through
    the functions that read or write them. *)

From Stdlib Require Import ZArith Ascii String List Lia Bool.
From stdpp Require Import base tactics option list strings gmap.

Local Open Scope Z_scope.

(** ** Errors

    The [error] values met in this package: its own [errors.New]
    messages, the path errors of [os.Stat] and [os.ReadFile], and the
    errors of [flag.FlagSet.Parse] (named by the text they print). *)

Inductive error : Type :=
  | errorString (msg : string)      (* errors.New(msg) *)
  | ErrNotExist (path : string)     (* *fs.PathError for which os.IsNotExist holds *)
  | ErrPath (path : string) (reason : string) (* any other *fs.PathError *)
  | ErrHelp                         (* flag: help requested *)
  | ErrBadFlagSyntax (arg : string) (* bad flag syntax: arg *)
  | ErrNotDefined (flag : string)   (* flag provided but not defined: -flag *)
  | ErrNeedsArgument (flag : string) (* flag needs an argument: -flag *)
  | ErrInvalidBoolean (value flag : string) (* invalid boolean value .. for -flag *)
  | ErrInvalidValue (value flag : string).  (* invalid value .. for flag -flag *)

(** The value a panic carries: a run-time error or an [error]. *)
Inductive PanicValue : Type :=
  | runtimeError (msg : string)
  | errorValue (e : error).

Definition IsNotExist (e : error) : bool :=
  match e with ErrNotExist _ => true | _ => false end.

(** ** Machine integers *)

Module Uint.
Definition bits : Z := 64.
Definition modulus : Z := 2 ^ bits.
Definition max : Z := modulus - 1.
(** conversion [uint(i)] and the wrap-around of [+] on [uint] *)
Definition of_int (i : Z) : Z := i mod modulus.
Definition add (a b : Z) : Z := (a + b) mod modulus.
Definition in_range (a : Z) : Prop := 0 <= a < modulus.
End Uint.

Module Int.
Definition min : Z := - 2 ^ 63.
Definition max : Z := 2 ^ 63 - 1.
Definition in_rangeb (i : Z) : bool := (min <=? i) && (i <=? max).
End Int.

(** ** The pieces of package [strings] used by the loader *)

Module Strings.

Definition byte (c : ascii) : Z := Z.of_N (N_of_ascii c).

(** [len(s)] *)
Definition len (s : string) : Z := Z.of_nat (String.length s).

(** [strings.Split(s, sep)] for a one-byte separator: at least one
    field, also for the empty string. *)
Fixpoint Split (s : string) (sep : ascii) : list string :=
  match s with
  | EmptyString => [EmptyString]
  | String c r =>
      if Ascii.eqb c sep then EmptyString :: Split r sep
      else match Split r sep with
           | h :: t => String c h :: t
           | [] => [String c EmptyString]
           end
  end.

(** The text before and after the first occurrence of [sep], if any. *)
Fixpoint Cut (s : string) (sep : ascii) : option (string * string) :=
  match s with
  | EmptyString => None
  | String c r =>
      if Ascii.eqb c sep then Some (EmptyString, r)
      else match Cut r sep with
           | Some (a, b) => Some (String c a, b)
           | None => None
           end
  end.

(** [strings.SplitN(s, sep, 2)] for a one-byte separator. *)
Definition SplitN2 (s : string) (sep : ascii) : list string :=
  match Cut s sep with
  | Some (a, b) => [a; b]
  | None => [s]
  end.

(** The six ASCII white-space bytes of [strings.asciiSpace]. *)
Definition asciiSpace (c : ascii) : bool :=
  match c with
  | "009" | "010" | "011" | "012" | "013" | " " => true
  | _ => false
  end%char.

(** The UTF-8 encodings of the other runes for which [unicode.IsSpace]
    holds: U+0085 and U+00A0 (two bytes), U+1680, U+2000..U+200A,
    U+2028, U+2029, U+202F, U+205F and U+3000 (three bytes). *)
Definition space2 (c d : ascii) : bool :=
  (byte c =? 194) && ((byte d =? 133) || (byte d =? 160)).

Definition space3 (c d e : ascii) : bool :=
  ((byte c =? 225) && (byte d =? 154) && (byte e =? 128))
  || ((byte c =? 226) && (byte d =? 128)
      && (((128 <=? byte e) && (byte e <=? 138))
          || (byte e =? 168) || (byte e =? 169) || (byte e =? 175)))
  || ((byte c =? 226) && (byte d =? 129) && (byte e =? 159))
  || ((byte c =? 227) && (byte d =? 128) && (byte e =? 128)).

(** [strings.TrimLeftFunc(s, unicode.IsSpace)]: runes are decoded from
    the front and dropped while they are white space; an invalid byte
    decodes to U+FFFD, which is not. *)
Fixpoint TrimLeftSpace (s : string) : string :=
  match s with
  | EmptyString => EmptyString
  | String c r =>
      if asciiSpace c then TrimLeftSpace r
      else match r with
           | String d r2 =>
               if space2 c d then TrimLeftSpace r2
               else match r2 with
                    | String e r3 => if space3 c d e then TrimLeftSpace r3 else s
                    | EmptyString => s
                    end
           | EmptyString => s
           end
  end.

Fixpoint rev (s : string) : string :=
  match s with
  | EmptyString => EmptyString
  | String c r => String.append (rev r) (String c EmptyString)
  end.

(** The same from the back, on the reversed bytes: the last rune is
    found by [utf8.DecodeLastRuneInString]. *)
Fixpoint trimRev (s : string) : string :=
  match s with
  | EmptyString => EmptyString
  | String e r =>
      if asciiSpace e then trimRev r
      else match r with
           | String d r2 =>
               if space2 d e then trimRev r2
               else match r2 with
                    | String c r3 => if space3 c d e then trimRev r3 else s
                    | EmptyString => s
                    end
           | EmptyString => s
           end
  end.

Definition TrimRightSpace (s : string) : string := rev (trimRev (rev s)).

(** [strings.TrimSpace(s)]: leading and trailing white space, as
    defined by Unicode, removed. Its ASCII fast path agrees with the
    rune-wise functions it falls back to. *)
Definition TrimSpace (s : string) : string := TrimRightSpace (TrimLeftSpace s).

End Strings.

(** ** [strconv.Atoi] *)

Module Strconv.

Definition digit (c : ascii) : option Z :=
  let b := Strings.byte c in
  if (48 <=? b) && (b <=? 57) then Some (b - 48) else None.

(** value of a run of decimal digits, [None] on any other byte *)
Fixpoint digits (acc : Z) (s : string) : option Z :=
  match s with
  | EmptyString => Some acc
  | String c r =>
      match digit c with
      | Some d => digits (acc * 10 + d) r
      | None => None
      end
  end.

Definition unsigned (s : string) : option Z :=
  match s with
  | EmptyString => None
  | _ => digits 0 s
  end.

(** [strconv.Atoi(s)]: an optional sign, then one or more decimal
    digits, the value within the range of [int]; anything else is a
    syntax or range error ([None]). *)
Definition Atoi (s : string) : option Z :=
  let signed :=
    match s with
    | String "-" r => option_map Z.opp (unsigned r)
    | String "+" r => unsigned r
    | _ => unsigned s
    end%char in
  match signed with
  | Some i => if Int.in_rangeb i then Some i else None
  | None => None
  end.

(** [lower(c)]: the byte with bit 0x20 set. *)
Definition lower (c : ascii) : Z := Z.lor (Strings.byte c) 32.

(** The digits of [strconv.ParseUint] in base [base]: [n] is the value
    so far, [us] tells whether an underscore was met. The result is
    [inl] of what the call returns early (0 on a syntax error, the
    maximum on a range error) or [inr] of the value and [us]. *)
Fixpoint uintDigits (base : Z) (n : Z) (us : bool) (s : string) : Z + Z * bool :=
  match s with
  | EmptyString => inr (n, us)
  | String c r =>
      let b := Strings.byte c in
      if b =? 95 then uintDigits base n true r
      else
        let d := if (48 <=? b) && (b <=? 57) then Some (b - 48)
                 else if (97 <=? lower c) && (lower c <=? 122) then Some (lower c - 97 + 10)
                 else None in
        match d with
        | None => inl 0
        | Some d =>
            if base <=? d then inl 0
            else if (Uint.max / base + 1) <=? n then inl Uint.max
            else if Uint.max <? n * base + d then inl Uint.max
            else uintDigits base (n * base + d) us r
        end
  end.

(** [strconv.underscoreOK]: underscores only between digits, or
    between the base prefix and a digit. [saw] is the kind of the last
    byte: [0] the beginning, [1] a digit, [2] an underscore, [3] other. *)
Fixpoint underscoreScan (hex : bool) (saw : Z) (s : string) : bool :=
  match s with
  | EmptyString => negb (saw =? 2)
  | String c r =>
      let b := Strings.byte c in
      if ((48 <=? b) && (b <=? 57)) || (hex && (97 <=? lower c) && (lower c <=? 102))
      then underscoreScan hex 1 r
      else if b =? 95
      then if saw =? 1 then underscoreScan hex 2 r else false
      else if saw =? 2 then false
      else underscoreScan hex 3 r
  end.

Definition underscoreOK (s : string) : bool :=
  let s := match s with
           | String "-" r => r
           | String "+" r => r
           | _ => s
           end%char in
  match s with
  | String "0"%char (String p r) =>
      if (lower p =? 98) || (lower p =? 111) || (lower p =? 120)
      then underscoreScan (lower p =? 120) 1 r
      else underscoreScan false 0 s
  | _ => underscoreScan false 0 s
  end.

(** [strconv.ParseUint(s, 0, 64)]: the value and whether the text was
    accepted. With base 0 the prefixes [0b], [0o], [0x] and a leading
    [0] choose the base, and underscores may separate digits. *)
Definition ParseUint (s0 : string) : Z * bool :=
  match s0 with
  | EmptyString => (0, false)
  | String c0 r0 =>
      let '(base, s) :=
        if Strings.byte c0 =? 48 then
          match r0 with
          | String p (String q t) =>
              if lower p =? 98 then (2, String q t)
              else if lower p =? 111 then (8, String q t)
              else if lower p =? 120 then (16, String q t)
              else (8, r0)
          | _ => (8, r0)
          end
        else (10, s0) in
      match uintDigits base 0 false s with
      | inl v => (v, false)
      | inr (n, us) =>
          if us && negb (underscoreOK s0) then (0, false) else (n, true)
      end
  end.

End Strconv.

(** ** The Windows rewriting of [$NAME] into [%NAME%]

    [re = regexp.MustCompile(`\$([a-zA-Z]+[a-zA-Z0-9_]+)`)] matches a
    dollar sign followed by a run of at least two word bytes whose first
    is a letter; a leftmost-first match always takes the whole run.
    [re.ReplaceAllStringFunc(v, f)] rewrites every match, left to right. *)

Module Regexp.

Definition isLetter (c : ascii) : bool :=
  let b := Strings.byte c in
  ((65 <=? b) && (b <=? 90)) || ((97 <=? b) && (b <=? 122)).

Definition isWord (c : ascii) : bool :=
  let b := Strings.byte c in
  isLetter c || ((48 <=? b) && (b <=? 57)) || (b =? 95).

(** the longest prefix of word bytes, and what follows it *)
Fixpoint span (s : string) : string * string :=
  match s with
  | EmptyString => (EmptyString, EmptyString)
  | String c r =>
      if isWord c then let '(w, rest) := span r in (String c w, rest)
      else (EmptyString, s)
  end.

(** the variable name matched right after a dollar sign, and the rest *)
Definition matchName (s : string) : option (string * string) :=
  match s with
  | String c _ =>
      if isLetter c then
        let '(w, rest) := span s in
        if (2 <=? String.length w)%nat then Some (w, rest) else None
      else None
  | EmptyString => None
  end.

Fixpoint replaceVars (fuel : nat) (s : string) : string :=
  match fuel with
  | O => s
  | S fuel' =>
      match s with
      | EmptyString => EmptyString
      | String c r =>
          if Ascii.eqb c "$" then
            match matchName r with
            | Some (w, rest) =>
                String.append (String "%" w) (String "%" (replaceVars fuel' rest))
            | None => String c (replaceVars fuel' r)
            end
          else String c (replaceVars fuel' r)
      end
  end.

(** [re.ReplaceAllStringFunc(v, func(s) { return "%" + s[1:] + "%" })] *)
Definition ReplaceAllVars (v : string) : string :=
  replaceVars (String.length v) v.

End Regexp.

(** ** Data model *)

(** [ProcInfo]: the fields that hold values; [cmd] is the handle of the
    running child (its pid), [nil] until the process is spawned. The
    mutex and the condition variable carry no data. *)
Record ProcInfo : Type := mkProcInfo {
  name : string;
  cmdline : string;
  cmd : option Z;
  port : Z;
  setPort : bool;
  colorIndex : Z;
  stoppedBySupervisor : bool;
  waitErr : option error;
  logTime : bool
}.

Record Config : Type := mkConfig {
  Args : list string;
  Procfile : string;
  StartRpcServer : bool;
  RpcPort : Z;
  BaseDir : string;
  BasePort : Z;
  ExitOnError : bool;
  ExitOnStop : bool;
  SetPorts : bool;
  LogTime : bool
}.

Definition set_Args (v : list string) (c : Config) : Config :=
  mkConfig v (Procfile c) (StartRpcServer c) (RpcPort c) (BaseDir c)
           (BasePort c) (ExitOnError c) (ExitOnStop c) (SetPorts c) (LogTime c).
Definition set_Procfile (v : string) (c : Config) : Config :=
  mkConfig (Args c) v (StartRpcServer c) (RpcPort c) (BaseDir c)
           (BasePort c) (ExitOnError c) (ExitOnStop c) (SetPorts c) (LogTime c).
Definition set_StartRpcServer (v : bool) (c : Config) : Config :=
  mkConfig (Args c) (Procfile c) v (RpcPort c) (BaseDir c)
           (BasePort c) (ExitOnError c) (ExitOnStop c) (SetPorts c) (LogTime c).
Definition set_RpcPort (v : Z) (c : Config) : Config :=
  mkConfig (Args c) (Procfile c) (StartRpcServer c) v (BaseDir c)
           (BasePort c) (ExitOnError c) (ExitOnStop c) (SetPorts c) (LogTime c).
Definition set_BaseDir (v : string) (c : Config) : Config :=
  mkConfig (Args c) (Procfile c) (StartRpcServer c) (RpcPort c) v
           (BasePort c) (ExitOnError c) (ExitOnStop c) (SetPorts c) (LogTime c).
Definition set_BasePort (v : Z) (c : Config) : Config :=
  mkConfig (Args c) (Procfile c) (StartRpcServer c) (RpcPort c) (BaseDir c)
           v (ExitOnError c) (ExitOnStop c) (SetPorts c) (LogTime c).
Definition set_ExitOnError (v : bool) (c : Config) : Config :=
  mkConfig (Args c) (Procfile c) (StartRpcServer c) (RpcPort c) (BaseDir c)
           (BasePort c) v (ExitOnStop c) (SetPorts c) (LogTime c).
Definition set_ExitOnStop (v : bool) (c : Config) : Config :=
  mkConfig (Args c) (Procfile c) (StartRpcServer c) (RpcPort c) (BaseDir c)
           (BasePort c) (ExitOnError c) v (SetPorts c) (LogTime c).
Definition set_SetPorts (v : bool) (c : Config) : Config :=
  mkConfig (Args c) (Procfile c) (StartRpcServer c) (RpcPort c) (BaseDir c)
           (BasePort c) (ExitOnError c) (ExitOnStop c) v (LogTime c).
Definition set_LogTime (v : bool) (c : Config) : Config :=
  mkConfig (Args c) (Procfile c) (StartRpcServer c) (RpcPort c) (BaseDir c)
           (BasePort c) (ExitOnError c) (ExitOnStop c) (SetPorts c) v.

(** The zero value [Config{}]. *)
Definition zeroConfig : Config :=
  mkConfig [] EmptyString false 0 EmptyString 0 false false false false.

(** The package-level variables [procs] and [maxProcNameLength]. *)
Record Globals : Type := mkGlobals {
  procs : list ProcInfo;
  maxProcNameLength : Z
}.

(** What [os.Stat] and [os.ReadFile] answer for a path. *)
Record FileSystem : Type := mkFS {
  Stat : string -> option error;
  ReadFile : string -> error + string
}.

(** ** Panics and exits

    A computation either completes, panics, or ends the process through
    [os.Exit]. An [error] is an ordinary return value, as in Go, next to
    the state the call leaves behind. *)

Inductive Run (A : Type) : Type :=
  | Done (a : A)
  | Panic (v : PanicValue)
  | Exit (code : Z).
Arguments Done {A} a.
Arguments Panic {A} v.
Arguments Exit {A} code.

#[global] Instance Run_bind : MBind Run := fun A B (k : A -> Run B) (m : Run A) =>
  match m with
  | Done a => k a
  | Panic v => Panic v
  | Exit code => Exit code
  end.

(** ** [readProcfile] *)

Section Loader.

(** [colors], the palette of log.go, and [runtime.GOOS]. *)
Variable colors : list Z.
Variable GOOS : string.

Definition LoopState : Type := (Config * Globals * Z)%type.

(** One iteration of the loop over the lines: [cfg], the globals and
    [index] before and after. *)
Definition readLine (line : string) (st : LoopState) : Run LoopState :=
  let '(cfg, g, index) := st in
  match Strings.SplitN2 line ":" with
  | [t0; t1] =>
      match String.get 0 t0 with
      | None => Panic (runtimeError "index out of range [0] with length 0")
      | Some c0 =>
          if Ascii.eqb c0 "#" then Done st
          else
            let k := Strings.TrimSpace t0 in
            let v := Strings.TrimSpace t1 in
            let v := if String.eqb GOOS "windows" then Regexp.ReplaceAllVars v else v in
            let proc :=
              if SetPorts cfg
              then mkProcInfo k v None (BasePort cfg) true index false None (LogTime cfg)
              else mkProcInfo k v None 0 false index false None (LogTime cfg) in
            let cfg' :=
              if SetPorts cfg then set_BasePort (Uint.add (BasePort cfg) 100) cfg else cfg in
            let g' :=
              mkGlobals (procs g ++ [proc])
                        (if Strings.len k >? maxProcNameLength g
                         then Strings.len k else maxProcNameLength g) in
            if Z.of_nat (length colors) =? 0
            then Panic (runtimeError "integer divide by zero")
            else Done (cfg', g', Z.rem (index + 1) (Z.of_nat (length colors)))
      end
  | _ => Done st
  end.

Fixpoint readLines (lines : list string) (st : LoopState) : Run LoopState :=
  match lines with
  | [] => Done st
  | line :: rest => st' ← readLine line st; readLines rest st'
  end.

Definition readProcfile (fs : FileSystem) (cfg : Config) (g : Globals)
  : Run (option error * Config * Globals) :=
  match Stat fs (Procfile cfg) with
  | Some err =>
      if IsNotExist err
      then Done (Some (errorString ("procfile does not exist:" +:+ Procfile cfg)), cfg, g)
      else Done (Some err, cfg, g)
  | None =>
      match ReadFile fs (Procfile cfg) with
      | inl err => Done (Some err, cfg, g)
      | inr content =>
          '(cfg', g', _) ← readLines (Strings.Split content "010")
                                     (cfg, mkGlobals [] (maxProcNameLength g), 0);
          if Z.of_nat (length (procs g')) =? 0
          then Done (Some (errorString "no valid entry"), cfg', g')
          else Done (None, cfg', g')
      end
  end.

(** ** [findProc] *)

Fixpoint findIn (l : list ProcInfo) (n : string) : option ProcInfo :=
  match l with
  | [] => None
  | proc :: rest => if String.eqb (name proc) n then Some proc else findIn rest n
  end.

Definition findProc (g : Globals) (n : string) : option ProcInfo :=
  findIn (procs g) n.

End Loader.

(** ** Defaults taken from the environment *)

Definition Env : Type := gmap string string.

(** [os.LookupEnv] and [os.Getenv] *)
Definition LookupEnv (env : Env) (key : string) : option string := env !! key.
Definition Getenv (env : Env) (key : string) : string := default EmptyString (env !! key).

Definition defaultAddr (env : Env) : string :=
  match LookupEnv env "GOREMAN_RPC_ADDR" with
  | Some s => s
  | None => "0.0.0.0"
  end.

Definition defaultPort (env : Env) : Z :=
  let s := Getenv env "GOREMAN_RPC_PORT" in
  if negb (String.eqb s EmptyString) then
    match Strconv.Atoi s with
    | Some i => Uint.of_int i
    | None => 8555
    end
  else 8555.

(** ** Struct tags of [Config] and [GetTag] *)

Definition StructType : Type := list (string * list (string * string)).

Definition tag (y d dflt : string) : list (string * string) :=
  [("yaml", y); ("mapstructure", y); ("description", d); ("default", dflt)].

Definition ConfigType : StructType :=
  [ ("Args", []);
    ("Procfile", tag "procfile" "proc file" "Procfile");
    ("StartRpcServer", tag "rpc-server" "start an RPC server" "true");
    ("RpcPort", tag "port" "port" "8555");
    ("BaseDir", tag "basedir" "base directory" "");
    ("BasePort", tag "baseport" "base port" "5000");
    ("ExitOnError", tag "exit_on_error" "exit on error" "false");
    ("ExitOnStop", tag "exit_on_stop" "exit on stop" "true");
    ("SetPorts", tag "set_ports"
       "False to avoid setting PORT env var for each subprocess" "true");
    ("LogTime", tag "logtime" "show timestamp in log" "true") ].

Fixpoint assoc {A : Type} (l : list (string * A)) (k : string) : option A :=
  match l with
  | [] => None
  | (k', v) :: rest => if String.eqb k' k then Some v else assoc rest k
  end.

Definition GetTag (t : StructType) (field key : string) : string :=
  match assoc t field with
  | None => EmptyString
  | Some tg => default EmptyString (assoc tg key)
  end.

(** ** Package [flag]: a flag set over the fields of a [Config] *)

Module Flag.

Inductive ErrorHandling : Type := ContinueOnError | ExitOnError | PanicOnError.

(** A defined flag: the kind of its value and the field it writes. *)
Inductive Value : Type :=
  | stringValue (set : string -> Config -> Config)
  | uintValue (set : Z -> Config -> Config)
  | boolValue (set : bool -> Config -> Config).

(** [strconv.ParseBool]: the value and whether the text was accepted. *)
Definition ParseBool (s : string) : bool * bool :=
  if existsb (String.eqb s) ["1"; "t"; "T"; "TRUE"; "true"; "True"] then (true, true)
  else if existsb (String.eqb s) ["0"; "f"; "F"; "FALSE"; "false"; "False"] then (false, true)
  else (false, false).

(** What [parseOne] reports: no flag seen and no error, with [f.args];
    an error, with the fields and [f.args] as the failed call left them;
    or a flag seen, [next] telling that its value was the next argument. *)
Inductive Step : Type :=
  | Stop (args : list string)
  | Fail (e : error) (cfg : Config) (args : list string)
  | Seen (cfg : Config) (next : bool).

Section Parse.

(** [strconv.ParseUint(s, 0, strconv.IntSize)]: the value (0 or the
    maximum when the text is rejected) and whether it was accepted. *)
Variable ParseUint : string -> Z * bool.

(** [f.formal] *)
Variable formal : list (string * Value).

(** [parseOne] on [f.args = s :: rest]. A flag's [Set] stores the parsed
    value into its variable before it reports a parse error. *)
Definition parseOne (cfg : Config) (s : string) (rest : list string) : Step :=
  match s with
  | String c0 (String c1 s2) =>
      if negb (Ascii.eqb c0 "-") then Stop (s :: rest)
      else if Ascii.eqb c1 "-" && String.eqb s2 EmptyString then Stop rest
      else
        let name := if Ascii.eqb c1 "-" then s2 else String c1 s2 in
        match name with
        | EmptyString => Fail (ErrBadFlagSyntax s) cfg (s :: rest)
        | String n0 ntail =>
            if Ascii.eqb n0 "-" || Ascii.eqb n0 "=" then Fail (ErrBadFlagSyntax s) cfg (s :: rest)
            else
              let '(name, hasValue, value) :=
                match Strings.Cut ntail "=" with
                | Some (a, b) => (String n0 a, true, b)
                | None => (name, false, EmptyString)
                end in
              match assoc formal name with
              | None =>
                  if String.eqb name "help" || String.eqb name "h"
                  then Fail ErrHelp cfg rest
                  else Fail (ErrNotDefined name) cfg rest
              | Some (boolValue set) =>
                  if hasValue then
                    let '(v, ok) := ParseBool value in
                    if ok then Seen (set v cfg) false
                    else Fail (ErrInvalidBoolean value name) (set v cfg) rest
                  else Seen (set true cfg) false
              | Some fl =>
                  let setText (value : string) (args : list string) (next : bool) :=
                    match fl with
                    | uintValue set =>
                        let '(v, ok) := ParseUint value in
                        if ok then Seen (set v cfg) next
                        else Fail (ErrInvalidValue value name) (set v cfg) args
                    | stringValue set => Seen (set value cfg) next
                    | boolValue _ => Seen cfg next
                    end in
                  if hasValue then setText value rest false
                  else match rest with
                       | value :: rest' => setText value rest' true
                       | [] => Fail (ErrNeedsArgument name) cfg rest
                       end
              end
        end
  | _ => Stop (s :: rest)
  end.

(** The loop of [Parse] until [parseOne] sees no flag: the fields, what
    is left in [f.args], and the error that ended the loop, if any. *)
Fixpoint parseArgs (cfg : Config) (args : list string)
  : Config * list string * option error :=
  match args with
  | [] => (cfg, [], None)
  | s :: rest =>
      match parseOne cfg s rest with
      | Stop args' => (cfg, args', None)
      | Fail e cfg' args' => (cfg', args', Some e)
      | Seen cfg' false => parseArgs cfg' rest
      | Seen cfg' true =>
          match rest with
          | _ :: rest' => parseArgs cfg' rest'
          | [] => (cfg', [], None)
          end
      end
  end.

(** [f.Parse(args)] under the error handling of the flag set; the
    returned error is the one the caller may inspect. *)
Definition Parse (eh : ErrorHandling) (cfg : Config) (args : list string)
  : Run (Config * list string * option error) :=
  match parseArgs cfg args with
  | (cfg', args', None) => Done (cfg', args', None)
  | (cfg', args', Some e) =>
      match eh with
      | ContinueOnError => Done (cfg', args', Some e)
      | ExitOnError =>
          match e with
          | ErrHelp => Exit 0
          | _ => Exit 2
          end
      | PanicOnError => Panic (errorValue e)
      end
  end.

End Parse.

End Flag.

(** ** [ParseConfigWithFlagSet]

    The flags are defined on a flag set that has none yet, as the one
    [ParseConfig] makes with [flag.NewFlagSet]; [eh] is its error
    handling. Each [Var] call stores the flag's default in the field. *)

Section ParseConfig.

Variable ParseUint : string -> Z * bool.

Definition configFlags : list (string * Flag.Value) :=
  [ ("f", Flag.stringValue set_Procfile);
    ("p", Flag.uintValue set_RpcPort);
    ("rpc-server", Flag.boolValue set_StartRpcServer);
    ("basedir", Flag.stringValue set_BaseDir);
    ("b", Flag.uintValue set_BasePort);
    ("set-ports", Flag.boolValue set_SetPorts);
    ("exit-on-error", Flag.boolValue set_ExitOnError);
    ("exit-on-stop", Flag.boolValue set_ExitOnStop);
    ("logtime", Flag.boolValue set_LogTime) ].

Definition configDefaults (env : Env) : Config :=
  set_LogTime true
    (set_ExitOnStop true
      (set_ExitOnError false
        (set_SetPorts true
          (set_BasePort (defaultPort env)
            (set_BaseDir EmptyString
              (set_StartRpcServer true
                (set_RpcPort (defaultPort env)
                  (set_Procfile "Procfile" zeroConfig)))))))).

Definition ParseConfigWithFlagSet (eh : Flag.ErrorHandling) (env : Env)
  (args : list string) : Run (Config * option error) :=
  '(cfg, rest, _) ← Flag.Parse ParseUint configFlags eh (configDefaults env) args;
  if (0 <? Z.of_nat (length rest))
  then Done (set_Args rest cfg, None)
  else Done (set_Args args cfg, None).

Definition ParseConfig (env : Env) (args : list string) : Run (Config * option error) :=
  ParseConfigWithFlagSet Flag.ExitOnError env args.

End ParseConfig.

(** ** The commands [check] and [start], and [MainWithConfig]

    [start] hands over to [startProcs] (proc.go), which owns the child
    processes; [OS] is the state that function works on. The context,
    the channels, [godotenv.Load] and the goroutine of the RPC server
    do not touch the registry and are left out. When a name is given
    twice, Go stores the same pointer twice; the list holds the entry
    twice. *)

Section Commands.

Variable colors : list Z.
Variable GOOS : string.
Context {OS : Type}.
Variable startProcs : Config -> Globals -> OS -> Run (option error * Globals * OS).

Definition check (fs : FileSystem) (cfg : Config) (g : Globals)
  : Run (option error * Config * Globals) :=
  readProcfile colors GOOS fs cfg g.

(** The loop over [cfg.Args[1:]]: [tmp] collects the entries found,
    [maxProcNameLength] is recomputed on the way. *)
Fixpoint selectProcs (names : list string) (g : Globals) (tmp : list ProcInfo)
  : option error * Globals * list ProcInfo :=
  match names with
  | [] => (None, g, tmp)
  | v :: rest =>
      match findProc g v with
      | None => (Some (errorString ("unknown proc: " +:+ v)), g, tmp)
      | Some proc =>
          selectProcs rest
            (mkGlobals (procs g)
               (if Strings.len v >? maxProcNameLength g
                then Strings.len v else maxProcNameLength g))
            (tmp ++ [proc])
      end
  end.

Definition start (fs : FileSystem) (cfg : Config) (g : Globals) (os : OS)
  : Run (option error * Config * Globals * OS) :=
  '(err, cfg, g) ← readProcfile colors GOOS fs cfg g;
  match err with
  | Some e => Done (Some e, cfg, g, os)
  | None =>
      let '(err, g) :=
        if 1 <? Z.of_nat (length (Args cfg)) then
          let '(err, g, tmp) := selectProcs (tail (Args cfg)) (mkGlobals (procs g) 0) [] in
          match err with
          | Some e => (Some e, g)
          | None => (None, mkGlobals tmp (maxProcNameLength g))
          end
        else (None, g) in
      match err with
      | Some e => Done (Some e, cfg, g, os)
      | None =>
          '(procsErr, g, os) ← startProcs cfg g os;
          Done (procsErr, cfg, g, os)
      end
  end.

(** The commands whose code is in other files, [os.Chdir] and [os.Args]. *)
Variable run : string -> list string -> Z -> option error.
Variable export : Config -> string -> string -> option error.
Variable Chdir : string -> option error.
Variable osArgs : list string.

Definition Usage {A : Type} : Run A := Exit 0.
Definition ShowVersion {A : Type} : Run A := Exit 0.

(** [MainWithConfig(cfg)] for a non-nil [cfg]: the final state when it
    returns (exit status 0), or the exit status passed to [os.Exit]. *)
Definition MainWithConfig (fs : FileSystem) (cfg : Config) (g : Globals) (os : OS)
  : Run (Config * Globals * OS) :=
  match (if negb (String.eqb (BaseDir cfg) EmptyString) then Chdir (BaseDir cfg) else None) with
  | Some _ => Exit 1
  | None =>
      let cmd :=
        match Args cfg with
        | c :: _ => c
        | [] => match osArgs with _ :: c :: _ => c | _ => EmptyString end
        end in
      '(err, cfg, g, os) ←
        (if String.eqb cmd "check" then
           '(err, cfg, g) ← check fs cfg g; Done (err, cfg, g, os)
         else if String.eqb cmd "help" then Usage
         else if String.eqb cmd "run" then
           match Args cfg with
           | _ :: c :: args => Done (run c args (RpcPort cfg), cfg, g, os)
           | _ => Usage
           end
         else if String.eqb cmd "export" then
           match Args cfg with
           | [_; format; path] => Done (export cfg format path, cfg, g, os)
           | _ => Usage
           end
         else if String.eqb cmd "start" then start fs cfg g os
         else if String.eqb cmd "version" then ShowVersion
         else Usage);
      match err with
      | Some _ => Exit 1
      | None => Done (cfg, g, os)
      end
  end.

End Commands.

(** ** Starting the processes

    Modelled from the spec: [startProcs] and the process state machine
    live in proc.go, which is not among the sources. The Lifecycle
    Supervisor's [startAll] is taken from the spec's words: for each
    spec, in registry order, a child is spawned with its derived
    environment (the port variable when port assignment is enabled) and
    the instance moves from [Starting] to [Running]; the first spawn
    that fails aborts the whole batch: the failing instance is [Failed],
    every instance started so far is stopped ([stoppedBySupervisor] set,
    then [Stopping]), the rest is never spawned, and the error is
    returned as the fatal startup error. *)

Module Supervisor.

Inductive State : Type := Starting | Running | Stopping | Stopped | Failed.

Record Instance : Type := mkInstance {
  spec : ProcInfo;
  state : State
}.

(** Modelled from the spec: the environment a child gets besides the
    parent's. *)
Definition childEnv (p : ProcInfo) : list (string * Z) :=
  if setPort p then [("PORT", port p)] else [].

Definition create (p : ProcInfo) : Instance := mkInstance p Starting.

Definition withHandle (p : ProcInfo) (h : option Z) (stopped : bool) : ProcInfo :=
  mkProcInfo (name p) (cmdline p) h (port p) (setPort p) (colorIndex p)
             stopped (waitErr p) (logTime p).

(** Modelled from the spec: the transitions [startAll] takes. *)
Definition spawned (pid : Z) (i : Instance) : Instance :=
  mkInstance (withHandle (spec i) (Some pid) false) Running.

Definition stop (i : Instance) : Instance :=
  match state i with
  | Starting | Running => mkInstance (withHandle (spec i) (cmd (spec i)) true) Stopping
  | _ => i
  end.

Definition failed (i : Instance) : Instance := mkInstance (spec i) Failed.

Section StartAll.

(** What the operating system answers to a spawn request: the pid of
    the child, or nothing when it could not create it. *)
Variable spawn : ProcInfo -> list (string * Z) -> option Z.

(** Modelled from the spec: the batch, [started] being the instances
    already running. *)
Fixpoint startEach (todo started : list Instance) : option error * list Instance :=
  match todo with
  | [] => (None, started)
  | i :: rest =>
      match spawn (spec i) (childEnv (spec i)) with
      | Some pid => startEach rest (started ++ [spawned pid i])
      | None =>
          (Some (errorString ("failed to start " +:+ name (spec i))),
           map stop started ++ failed i :: rest)
      end
  end.

(** Modelled from the spec: [startAll(specs)]. *)
Definition startAll (specs : list ProcInfo) : option error * list Instance :=
  startEach (map create specs) [].

(** Modelled from the spec: [startProcs] as [start] calls it, on the
    registry; the instances are the state it leaves. *)
Definition startProcs (cfg : Config) (g : Globals) (os : list Instance)
  : Run (option error * Globals * list Instance) :=
  let '(err, insts) := startAll (procs g) in Done (err, g, insts).

End StartAll.

End Supervisor.




(** ** The Procfile as the specification describes it

    A line is an entry when it has a [:] and does not begin with [#];
    its name is the text before the first [:], its command the text
    after it, both without the surrounding white space. *)

Module Procfile.

Fixpoint hasByte (c : ascii) (s : string) : bool :=
  match s with
  | EmptyString => false
  | String c' r => Ascii.eqb c' c || hasByte c r
  end.

Definition startsWith (c : ascii) (s : string) : bool :=
  match s with
  | String c' _ => Ascii.eqb c' c
  | EmptyString => false
  end.

Definition isEntry (line : string) : bool :=
  hasByte ":" line && negb (startsWith "#" line).

Definition lines (content : string) : list string := Strings.Split content "010".

Definition entries (content : string) : list string :=
  List.filter isEntry (lines content).

Definition key (line : string) : string :=
  match Strings.Cut line ":" with Some (k, _) => k | None => line end.

Definition value (line : string) : string :=
  match Strings.Cut line ":" with Some (_, v) => v | None => EmptyString end.

Definition entryName (line : string) : string := Strings.TrimSpace (key line).

Definition entryCommand (GOOS : string) (line : string) : string :=
  let v := Strings.TrimSpace (value line) in
  if String.eqb GOOS "windows" then Regexp.ReplaceAllVars v else v.

End Procfile.

Fixpoint hasPrefix (prefix s : string) : bool :=
  match prefix, s with
  | EmptyString, _ => true
  | String a p, String b r => Ascii.eqb a b && hasPrefix p r
  | String _ _, EmptyString => false
  end.

(** The arguments that set the flag [name]: [-name], [--name],
    [-name=v] and [--name=v]. *)
Definition setsFlag (name : string) (arg : string) : bool :=
  String.eqb arg ("-" +:+ name) || String.eqb arg ("--" +:+ name)
  || hasPrefix ("-" +:+ name +:+ "=") arg
  || hasPrefix ("--" +:+ name +:+ "=") arg.

(** ** What one pass of the loader's loop does

    The entry appended for an entry line, the configuration and the
    longest name after it, and the entries appended for a run of entry
    lines; the loop of [readProcfile] is compared with these. *)

Section LoaderEffect.

Variable colors : list Z.
Variable GOOS : string.

Definition lineEntry (cfg : Config) (index : Z) (line : string) : ProcInfo :=
  mkProcInfo (Procfile.entryName line) (Procfile.entryCommand GOOS line) None
             (if SetPorts cfg then BasePort cfg else 0) (SetPorts cfg)
             index false None (LogTime cfg).

Definition lineConfig (cfg : Config) : Config :=
  if SetPorts cfg then set_BasePort (Uint.add (BasePort cfg) 100) cfg else cfg.

Definition lineMax (m : Z) (line : string) : Z :=
  if Strings.len (Procfile.entryName line) >? m
  then Strings.len (Procfile.entryName line) else m.

(** The entries the loop appends for a run of entry lines. *)
Fixpoint newEntries (cfg : Config) (index : Z) (es : list string) : list ProcInfo :=
  match es with
  | [] => []
  | line :: rest =>
      lineEntry cfg index line
        :: newEntries (lineConfig cfg) (Z.rem (index + 1) (Z.of_nat (length colors))) rest
  end.

End LoaderEffect.

(** A flag whose [Set] leaves [BasePort] alone. *)
Definition keepsBasePort (fl : Flag.Value) : Prop :=
  match fl with
  | Flag.stringValue set => forall v c, BasePort (set v c) = BasePort c
  | Flag.uintValue set => forall v c, BasePort (set v c) = BasePort c
  | Flag.boolValue set => forall v c, BasePort (set v c) = BasePort c
  end.


(** ** Sample inputs *)

Module Sample.

Definition nl : string := String "010" EmptyString.

(** a palette of six colour codes *)
Definition palette : list Z := [32; 36; 35; 33; 34; 31].

(** a file system that holds one readable file *)
Definition oneFile (path content : string) : FileSystem :=
  mkFS (fun p => if String.eqb p path then None else Some (ErrNotExist p))
       (fun p => if String.eqb p path then inr content else inl (ErrNotExist p)).

Definition noFile : FileSystem :=
  mkFS (fun p => Some (ErrNotExist p)) (fun p => inl (ErrNotExist p)).

Definition startConfig (names : list string) (basePort : Z) : Config :=
  mkConfig ("start" :: names) "Procfile" true 8555 EmptyString basePort
           false true true true.

Definition noGlobals : Globals := mkGlobals [] 0.

(** what [readProcfile] leaves on Linux with the six colours *)
Definition load (content : string) (cfg : Config) : Config * Globals :=
  match readProcfile palette "linux" (oneFile "Procfile" content) cfg noGlobals with
  | Done (_, cfg', g') => (cfg', g')
  | _ => (cfg, noGlobals)
  end.

Definition webWorker : string :=
  "web: sleep 100" +:+ nl +:+ "# a comment: skipped" +:+ nl +:+ "worker: sleep 100" +:+ nl.

Definition eightEntries : string :=
  "a: 1" +:+ nl +:+ "b: 2" +:+ nl +:+ "c: 3" +:+ nl +:+ "d: 4" +:+ nl +:+
  "e: 5" +:+ nl +:+ "f: 6" +:+ nl +:+ "g: 7" +:+ nl +:+ "h: 8" +:+ nl.

Definition twiceWeb : string :=
  "web: sleep 1" +:+ nl +:+ " : sleep 2" +:+ nl +:+ "web: sleep 3".

Definition colonFirst : string := "web: sleep 1" +:+ nl +:+ ": sleep 2" +:+ nl.

End Sample.

(** An argument at which [parseOne] sees no flag: shorter than two
    bytes, or not beginning with [-]. *)
Definition notFlag (arg : string) : bool :=
  (String.length arg <? 2)%nat || negb (Procfile.startsWith "-" arg).

(** [Main()]: [MainWithConfig(nil)], which makes the zero [Config]. *)
Definition Main {OS : Type} (colors : list Z) (GOOS : string)
    (startProcs : Config -> Globals -> OS -> Run (option error * Globals * OS))
    (run : string -> list string -> Z -> option error)
    (export : Config -> string -> string -> option error)
    (Chdir : string -> option error) (osArgs : list string)
    (fs : FileSystem) (g : Globals) (os : OS) : Run (Config * Globals * OS) :=
  MainWithConfig colors GOOS startProcs run export Chdir osArgs fs zeroConfig g os.

(** The longest of the names, starting from [m]: what the loop of
    [start] over the given names leaves in [maxProcNameLength]. *)
Definition longest (m : Z) (names : list string) : Z :=
  fold_left (fun m v => if Strings.len v >? m then Strings.len v else m) names m.

(** A string that neither begins nor ends with one of the six ASCII
    white-space bytes. *)
Definition noSpaceFirst (s : string) : bool :=
  match s with
  | String c _ => negb (Strings.asciiSpace c)
  | EmptyString => true
  end.

Definition trimmedASCII (s : string) : bool :=
  noSpaceFirst s && noSpaceFirst (Strings.rev s).

(** ** More sample inputs *)

Module Fixture.

Definition fs : FileSystem := Sample.oneFile "Procfile" Sample.webWorker.

Definition cfg : Config := Sample.startConfig [] 5000.

(** the configuration and the globals after one load, and after a second *)
Definition once : Config * Globals := Sample.load Sample.webWorker cfg.

Definition twice : Config * Globals :=
  match readProcfile Sample.palette "linux" fs (fst once) (snd once) with
  | Done (_, cfg', g') => (cfg', g')
  | _ => once
  end.

(** the same entries as [Sample.webWorker], without the comment *)
Definition webWorkerBare : string :=
  "web: sleep 100" +:+ Sample.nl +:+ "worker: sleep 100".

Definition commentOnly : string := "# nothing: here" +:+ Sample.nl +:+ "no colon".

End Fixture.

(** * Properties *)

(** ** Strings *)

Lemma Cut_None_hasByte s c : Strings.Cut s c = None <-> Procfile.hasByte c s = false.
Proof.
  induction s as [|c' r IH]; simpl; [tauto|].
  destruct (Ascii.eqb c' c); simpl; [split; discriminate|].
  destruct (Strings.Cut r c) as [[a b]|]; [|tauto].
  split; [discriminate|]. intros H; apply IH in H; discriminate.
Qed.

Lemma Cut_Some_first s c k v :
  Strings.Cut s c = Some (k, v) ->
  match String.get 0 k with
  | Some c0 => String.get 0 s = Some c0 /\ Ascii.eqb c0 c = false
  | None => Procfile.startsWith c s = true
  end.
Proof.
  destruct s as [|c' r]; simpl; [discriminate|].
  destruct (Ascii.eqb c' c) eqn:E.
  - intros [= <- <-]. simpl. reflexivity.
  - destruct (Strings.Cut r c) as [[a b]|]; [|discriminate].
    intros [= <- <-]. simpl. auto.
Qed.

(** ** The loop of [readProcfile] *)

Section LoaderFacts.

Variable colors : list Z.
Variable GOOS : string.

Local Abbreviation ncolors := (Z.of_nat (length colors)).

Lemma readLine_Done line cfg g index st :
  readLine colors GOOS line (cfg, g, index) = Done st ->
  if Procfile.isEntry line
  then ncolors <> 0 /\
       st = (lineConfig cfg,
             mkGlobals (procs g ++ [lineEntry GOOS cfg index line])
                       (lineMax (maxProcNameLength g) line),
             Z.rem (index + 1) ncolors)
  else st = (cfg, g, index).
Proof.
  unfold readLine, Procfile.isEntry, Strings.SplitN2.
  destruct (Strings.Cut line ":") as [[k v]|] eqn:HC.
  - assert (Hb : Procfile.hasByte ":" line = true).
    { destruct (Procfile.hasByte ":" line) eqn:E; [done|].
      apply Cut_None_hasByte in E. congruence. }
    rewrite Hb. simpl.
    pose proof (Cut_Some_first _ _ _ _ HC) as Hf.
    destruct (String.get 0 k) as [c0|] eqn:Hg; [|discriminate].
    destruct Hf as [Hs _].
    assert (Hsw : Procfile.startsWith "#" line = Ascii.eqb c0 "#").
    { destruct line; simpl in *; congruence. }
    rewrite Hsw. destruct (Ascii.eqb c0 "#"); simpl.
    + congruence.
    + destruct (ncolors =? 0) eqn:En; [discriminate|].
      intros [= <-]. split; [lia|].
      unfold lineEntry, lineConfig, lineMax, Procfile.entryName,
        Procfile.entryCommand, Procfile.key, Procfile.value.
      rewrite HC. destruct (SetPorts cfg); reflexivity.
  - apply Cut_None_hasByte in HC. rewrite HC. simpl. congruence.
Qed.

(** A line panics exactly when it begins with [:], or is an entry
    while the palette is empty. *)
Lemma readLine_total line cfg g index :
  Procfile.startsWith ":" line = false ->
  (Procfile.isEntry line = true -> ncolors <> 0) ->
  exists st, readLine colors GOOS line (cfg, g, index) = Done st.
Proof.
  unfold readLine, Procfile.isEntry, Strings.SplitN2. intros Hc Hn.
  destruct (Strings.Cut line ":") as [[k v]|] eqn:HC; [|eauto].
  assert (Hb : Procfile.hasByte ":" line = true).
  { destruct (Procfile.hasByte ":" line) eqn:E; [done|].
    apply Cut_None_hasByte in E. congruence. }
  rewrite Hb in Hn. simpl in Hn.
  pose proof (Cut_Some_first _ _ _ _ HC) as Hf.
  destruct (String.get 0 k) as [c0|] eqn:Hg; [|congruence].
  destruct Hf as [Hs _].
  assert (Hsw : Procfile.startsWith "#" line = Ascii.eqb c0 "#").
  { destruct line; simpl in *; congruence. }
  rewrite Hsw in Hn.
  destruct (Ascii.eqb c0 "#"); [eauto|].
  destruct (ncolors =? 0) eqn:En; [|eauto].
  exfalso. apply Hn; [reflexivity|lia].
Qed.

Lemma lineConfig_fields cfg :
  Args (lineConfig cfg) = Args cfg /\ SetPorts (lineConfig cfg) = SetPorts cfg /\
  LogTime (lineConfig cfg) = LogTime cfg /\ Procfile (lineConfig cfg) = Procfile cfg.
Proof. unfold lineConfig. destruct (SetPorts cfg) eqn:E; simpl; auto. Qed.

Lemma readLines_Done ls : forall cfg g index cfg' g' index',
  readLines colors GOOS ls (cfg, g, index) = Done (cfg', g', index') ->
  procs g' = procs g ++ newEntries colors GOOS cfg index (List.filter Procfile.isEntry ls)
  /\ (List.filter Procfile.isEntry ls <> [] -> ncolors <> 0)
  /\ cfg' = fold_left (fun c _ => lineConfig c) (List.filter Procfile.isEntry ls) cfg
  /\ maxProcNameLength g'
     = fold_left lineMax (List.filter Procfile.isEntry ls) (maxProcNameLength g).
Proof.
  induction ls as [|line rest IH]; intros cfg g index cfg' g' index' H;
    cbn [readLines] in H.
  - injection H as <- <- <-. simpl. rewrite app_nil_r. auto.
  - destruct (readLine colors GOOS line (cfg, g, index)) as [[[cfg1 g1] i1]| |] eqn:HL;
      cbn [mbind Run_bind] in H; try discriminate.
    apply readLine_Done in HL. simpl.
    destruct (Procfile.isEntry line).
    + destruct HL as [Hn [= -> -> ->]]. apply IH in H.
      cbn [procs maxProcNameLength] in H.
      destruct H as (Hp & _ & Hc & Hm). rewrite Hp, <- app_assoc. simpl.
      repeat split; auto.
    + injection HL as -> -> ->. apply IH in H. exact H.
Qed.

Lemma fold_lineConfig_Args (es : list string) : forall cfg,
  Args (fold_left (fun c _ => lineConfig c) es cfg) = Args cfg.
Proof.
  induction es as [|e es IH]; intros cfg; simpl; [reflexivity|].
  rewrite IH. apply lineConfig_fields.
Qed.

(** Without a line that begins with [:], and with a palette, the loop
    runs to its end. *)
Lemma readLines_total ls : forall cfg g index,
  Forall (fun l => Procfile.startsWith ":" l = false) ls ->
  (List.filter Procfile.isEntry ls <> [] -> ncolors <> 0) ->
  exists st, readLines colors GOOS ls (cfg, g, index) = Done st.
Proof.
  induction ls as [|line rest IH]; intros cfg g index HF Hn; cbn [readLines]; [eauto|].
  inversion HF as [|? ? Hl HF']; subst.
  destruct (readLine_total line cfg g index Hl) as [[[cfg1 g1] i1] E].
  { intros He. apply Hn. simpl. rewrite He. discriminate. }
  rewrite E. cbn [mbind Run_bind]. apply IH; [exact HF'|].
  intros Hne. apply Hn. simpl. destruct (Procfile.isEntry line); [discriminate|exact Hne].
Qed.

Lemma readProcfile_ok fs cfg g cfg' g' :
  readProcfile colors GOOS fs cfg g = Done (None, cfg', g') ->
  exists content,
    Stat fs (Procfile cfg) = None /\ ReadFile fs (Procfile cfg) = inr content
    /\ procs g' = newEntries colors GOOS cfg 0 (Procfile.entries content)
    /\ procs g' <> [] /\ ncolors <> 0 /\ Args cfg' = Args cfg.
Proof.
  unfold readProcfile. intros H.
  destruct (Stat fs (Procfile cfg)) as [e|]; [destruct (IsNotExist e); discriminate|].
  destruct (ReadFile fs (Procfile cfg)) as [e|content]; [discriminate|].
  exists content.
  destruct (readLines colors GOOS (Strings.Split content "010")
              (cfg, mkGlobals [] (maxProcNameLength g), 0)) as [[[cfg1 g1] i1]| |] eqn:HL;
    cbn [mbind Run_bind] in H; try discriminate.
  apply readLines_Done in HL. cbn [procs app] in HL. destruct HL as (Hp & Hn & Ha & _).
  subst cfg1.
  destruct (Z.of_nat (length (procs g1)) =? 0) eqn:E; [discriminate|].
  injection H as <- <-.
  assert (Hne : procs g1 <> []) by (destruct (procs g1); [discriminate|done]).
  repeat split; auto using fold_lineConfig_Args. apply Hn. intros Hnil.
  unfold Procfile.entries, Procfile.lines in Hp. rewrite Hnil in Hp. auto.
Qed.

Lemma newEntries_Forall2 es : forall cfg index,
  Forall2 (fun p line => name p = Procfile.entryName line
                         /\ cmdline p = Procfile.entryCommand GOOS line)
          (newEntries colors GOOS cfg index es) es.
Proof. induction es; intros; simpl; constructor; auto. Qed.

Lemma newEntries_names es : forall cfg index,
  map name (newEntries colors GOOS cfg index es) = map Procfile.entryName es.
Proof. induction es; intros; simpl; f_equal; auto. Qed.

Lemma newEntries_color es : forall cfg index (i : nat) p,
  0 <= index < ncolors ->
  newEntries colors GOOS cfg index es !! i = Some p ->
  colorIndex p = (index + Z.of_nat i) mod ncolors.
Proof.
  induction es as [|line rest IH]; intros cfg index i p Hi H; [discriminate|].
  destruct i as [|i]; simpl in H.
  - injection H as <-. simpl. rewrite Z.add_0_r, Z.mod_small; lia.
  - apply IH in H.
    + rewrite H, Z.rem_mod_nonneg by lia.
      rewrite Zplus_mod_idemp_l. f_equal. lia.
    + rewrite Z.rem_mod_nonneg by lia. apply Z.mod_pos_bound. lia.
Qed.

Lemma newEntries_port es : forall cfg index (i : nat) p,
  SetPorts cfg = true ->
  Uint.in_range (BasePort cfg) ->
  newEntries colors GOOS cfg index es !! i = Some p ->
  setPort p = true /\ port p = (BasePort cfg + 100 * Z.of_nat i) mod Uint.modulus.
Proof.
  induction es as [|line rest IH]; intros cfg index i p HS HB H; [discriminate|].
  destruct i as [|i]; simpl in H.
  - injection H as <-. simpl. rewrite HS. split; [done|].
    rewrite Z.add_0_r, Z.mod_small; [done|exact HB].
  - apply IH in H.
    + destruct H as [-> ->]. split; [done|].
      unfold lineConfig. rewrite HS. cbn [BasePort set_BasePort]. unfold Uint.add.
      rewrite Zplus_mod_idemp_l. f_equal. lia.
    + unfold lineConfig. rewrite HS. exact HS.
    + unfold lineConfig. rewrite HS. cbn [BasePort set_BasePort].
      apply Z.mod_pos_bound. reflexivity.
Qed.

End LoaderFacts.

(** ** The registry after loading *)

(** C3: after a successful [readProcfile] the registry holds exactly one
    entry per entry line of the file, in the order of the lines: the
    i-th entry has the name and the command of the i-th entry line. *)
Theorem registry_in_file_order colors GOOS fs cfg g cfg' g' :
  readProcfile colors GOOS fs cfg g = Done (None, cfg', g') ->
  exists content,
    ReadFile fs (Procfile cfg) = inr content /\
    Forall2 (fun p line => name p = Procfile.entryName line
                           /\ cmdline p = Procfile.entryCommand GOOS line)
            (procs g') (Procfile.entries content).
Proof.
  intros H. apply readProcfile_ok in H as (content & _ & HR & Hp & _).
  exists content. split; [exact HR|]. rewrite Hp. apply newEntries_Forall2.
Qed.

Lemma registry_in_file_order_witness :
  exists content,
    ReadFile (Sample.oneFile "Procfile" Sample.webWorker) "Procfile" = inr content /\
    Forall2 (fun p line => name p = Procfile.entryName line
                           /\ cmdline p = Procfile.entryCommand "linux" line)
            (procs (snd (Sample.load Sample.webWorker (Sample.startConfig [] 5000))))
            (Procfile.entries content).
Proof.
  apply (registry_in_file_order Sample.palette "linux"
           (Sample.oneFile "Procfile" Sample.webWorker)
           (Sample.startConfig [] 5000) Sample.noGlobals
           (fst (Sample.load Sample.webWorker (Sample.startConfig [] 5000)))).
  vm_compute. reflexivity.
Defined.

(** C7: the i-th entry of the registry (0-based) has
    [colorIndex = i mod len(colors)]. *)
Theorem colorIndex_is_position_mod_palette colors GOOS fs cfg g cfg' g' (i : nat) p :
  readProcfile colors GOOS fs cfg g = Done (None, cfg', g') ->
  procs g' !! i = Some p ->
  colorIndex p = Z.of_nat i mod Z.of_nat (length colors).
Proof.
  intros H Hi. apply readProcfile_ok in H as (content & _ & _ & Hp & _ & Hn & _).
  rewrite Hp in Hi. apply newEntries_color in Hi; [exact Hi|lia].
Qed.

Lemma colorIndex_is_position_mod_palette_witness :
  colorIndex (mkProcInfo "h" "8" None 5700 true 1 false None true) = 7 mod 6.
Proof.
  apply (colorIndex_is_position_mod_palette Sample.palette "linux"
           (Sample.oneFile "Procfile" Sample.eightEntries)
           (Sample.startConfig [] 5000) Sample.noGlobals
           (fst (Sample.load Sample.eightEntries (Sample.startConfig [] 5000)))
           (snd (Sample.load Sample.eightEntries (Sample.startConfig [] 5000)))
           7%nat).
  - vm_compute. reflexivity.
  - vm_compute. reflexivity.
Defined.

(** C5, as the code has it: with port assignment enabled the i-th entry
    gets the base port plus 100 i reduced modulo 2^64, the range of
    [uint]; as long as the sums stay in that range the port is the base
    port plus 100 i and the ports increase strictly along the registry. *)
Theorem ports_step_by_100 colors GOOS fs cfg g cfg' g' :
  SetPorts cfg = true ->
  Uint.in_range (BasePort cfg) ->
  readProcfile colors GOOS fs cfg g = Done (None, cfg', g') ->
  (forall (i : nat) p, procs g' !! i = Some p ->
     port p = (BasePort cfg + 100 * Z.of_nat i) mod Uint.modulus)
  /\ (BasePort cfg + 100 * (Z.of_nat (length (procs g')) - 1) < Uint.modulus ->
      (forall (i : nat) p, procs g' !! i = Some p ->
         port p = BasePort cfg + 100 * Z.of_nat i)
      /\ (forall (i j : nat) p q, (i < j)%nat ->
            procs g' !! i = Some p -> procs g' !! j = Some q -> port p < port q)).
Proof.
  intros HS HB H. apply readProcfile_ok in H as (content & _ & _ & Hp & _).
  assert (Hmod : forall (i : nat) p, procs g' !! i = Some p ->
            port p = (BasePort cfg + 100 * Z.of_nat i) mod Uint.modulus).
  { intros i p Hi. rewrite Hp in Hi. eapply newEntries_port in Hi; eauto. tauto. }
  split; [exact Hmod|]. intros Hfit.
  assert (Hexact : forall (i : nat) p, procs g' !! i = Some p ->
            port p = BasePort cfg + 100 * Z.of_nat i).
  { intros i p Hi. rewrite (Hmod i p Hi). apply Z.mod_small.
    apply lookup_lt_Some in Hi. unfold Uint.in_range in HB. lia. }
  split; [exact Hexact|]. intros i j p q Hij Hi Hj.
  rewrite (Hexact i p Hi), (Hexact j q Hj). lia.
Qed.

Lemma ports_step_by_100_witness :
  (forall (i : nat) p,
     procs (snd (Sample.load Sample.webWorker (Sample.startConfig [] 5000))) !! i = Some p ->
     port p = (5000 + 100 * Z.of_nat i) mod Uint.modulus)
  /\ (5000 + 100 * (2 - 1) < Uint.modulus ->
      (forall (i : nat) p,
         procs (snd (Sample.load Sample.webWorker (Sample.startConfig [] 5000))) !! i = Some p ->
         port p = 5000 + 100 * Z.of_nat i)
      /\ (forall (i j : nat) p q, (i < j)%nat ->
            procs (snd (Sample.load Sample.webWorker (Sample.startConfig [] 5000))) !! i = Some p ->
            procs (snd (Sample.load Sample.webWorker (Sample.startConfig [] 5000))) !! j = Some q ->
            port p < port q)).
Proof.
  apply (ports_step_by_100 Sample.palette "linux"
           (Sample.oneFile "Procfile" Sample.webWorker)
           (Sample.startConfig [] 5000) Sample.noGlobals
           (fst (Sample.load Sample.webWorker (Sample.startConfig [] 5000)))).
  - reflexivity.
  - unfold Uint.in_range. vm_compute. split; [discriminate|reflexivity].
  - vm_compute. reflexivity.
Defined.

(** C5 as stated fails: a base port within 100 of the top of the
    [uint] range wraps around at the second entry. *)
Lemma ports_wrap_around :
  let cfg := Sample.startConfig [] (Uint.max - 49) in
  let g' := snd (Sample.load Sample.webWorker cfg) in
  SetPorts cfg = true /\ Uint.in_range (BasePort cfg)
  /\ readProcfile Sample.palette "linux" (Sample.oneFile "Procfile" Sample.webWorker)
       cfg Sample.noGlobals = Done (None, fst (Sample.load Sample.webWorker cfg), g')
  /\ map port (procs g') = [Uint.max - 49; 50]
  /\ ~ (forall (i : nat) p, procs g' !! i = Some p -> port p = BasePort cfg + 100 * Z.of_nat i)
  /\ ~ (forall (i j : nat) p q, (i < j)%nat ->
          procs g' !! i = Some p -> procs g' !! j = Some q -> port p < port q).
Proof.
  cbv zeta. split; [reflexivity|]. split; [vm_compute; split; [discriminate|reflexivity]|].
  split; [vm_compute; reflexivity|]. split; [vm_compute; reflexivity|]. split.
  - intros H.
    specialize (H 1%nat (mkProcInfo "worker" "sleep 100" None 50 true 1 false None true)).
    vm_compute in H. specialize (H eq_refl). discriminate.
  - intros H.
    specialize (H 0%nat 1%nat
      (mkProcInfo "web" "sleep 100" None (Uint.max - 49) true 0 false None true)
      (mkProcInfo "worker" "sleep 100" None 50 true 1 false None true)).
    vm_compute in H. specialize (H (le_n 1) eq_refl eq_refl). discriminate.
Qed.

Lemma findIn_first l n :
  findIn l n = head (List.filter (fun p => String.eqb (name p) n) l).
Proof.
  induction l as [|p rest IH]; simpl; [reflexivity|].
  destruct (String.eqb (name p) n); [reflexivity|exact IH].
Qed.

(** C6, as the code has it: after loading the registry is not empty,
    the names of its entries are, in order, the trimmed keys of the
    entry lines of the file (so they are unique and non-empty exactly
    when those trimmed keys are), and [findProc] answers with the first
    entry that has the name asked for. *)
Theorem registry_names_are_trimmed_keys colors GOOS fs cfg g cfg' g' :
  readProcfile colors GOOS fs cfg g = Done (None, cfg', g') ->
  exists content,
    ReadFile fs (Procfile cfg) = inr content
    /\ procs g' <> []
    /\ map name (procs g') = map Procfile.entryName (Procfile.entries content)
    /\ forall n, findProc g' n
                 = head (List.filter (fun p => String.eqb (name p) n) (procs g')).
Proof.
  intros H. apply readProcfile_ok in H as (content & _ & HR & Hp & Hne & _).
  exists content. repeat split; auto.
  - rewrite Hp. apply newEntries_names.
  - intros n. apply findIn_first.
Qed.

Lemma registry_names_are_trimmed_keys_witness :
  exists content,
    ReadFile (Sample.oneFile "Procfile" Sample.twiceWeb) "Procfile" = inr content
    /\ procs (snd (Sample.load Sample.twiceWeb (Sample.startConfig [] 5000))) <> []
    /\ map name (procs (snd (Sample.load Sample.twiceWeb (Sample.startConfig [] 5000))))
       = map Procfile.entryName (Procfile.entries content)
    /\ forall n, findProc (snd (Sample.load Sample.twiceWeb (Sample.startConfig [] 5000))) n
                 = head (List.filter (fun p => String.eqb (name p) n)
                           (procs (snd (Sample.load Sample.twiceWeb
                                          (Sample.startConfig [] 5000))))).
Proof.
  apply (registry_names_are_trimmed_keys Sample.palette "linux"
           (Sample.oneFile "Procfile" Sample.twiceWeb)
           (Sample.startConfig [] 5000) Sample.noGlobals
           (fst (Sample.load Sample.twiceWeb (Sample.startConfig [] 5000)))).
  vm_compute. reflexivity.
Defined.

(** C6 as stated fails: two lines with the same key give two entries of
    the same name, and a key of white space gives an empty name. *)
Lemma names_repeated_and_empty :
  let cfg := Sample.startConfig [] 5000 in
  let g' := snd (Sample.load Sample.twiceWeb cfg) in
  readProcfile Sample.palette "linux" (Sample.oneFile "Procfile" Sample.twiceWeb)
    cfg Sample.noGlobals = Done (None, fst (Sample.load Sample.twiceWeb cfg), g')
  /\ map name (procs g') = ["web"; ""; "web"]
  /\ ~ NoDup (map name (procs g'))
  /\ ~ Forall (fun p => name p <> EmptyString) (procs g').
Proof.
  cbv zeta. split; [vm_compute; reflexivity|]. split; [vm_compute; reflexivity|]. split.
  - intros H. vm_compute in H. apply NoDup_cons_1_1 in H. apply H.
    right. left.
  - intros H. vm_compute in H. apply Forall_cons_1 in H as [_ H].
    apply Forall_cons_1 in H as [H _]. apply H. reflexivity.
Qed.

(** ** Failing to load, and panics *)

Lemma isEntry_false_no_colon_first l :
  Procfile.isEntry l = false -> Procfile.startsWith ":" l = false.
Proof.
  unfold Procfile.isEntry. destruct l as [|c r]; simpl; [reflexivity|].
  destruct (Ascii.eqb c ":") eqn:E; [|reflexivity].
  apply Ascii.eqb_eq in E. subst c. simpl. discriminate.
Qed.

Lemma filter_nil_Forall {A} (f : A -> bool) (l : list A) :
  List.filter f l = [] -> Forall (fun x => f x = false) l.
Proof.
  induction l as [|x l IH]; simpl; [constructor|].
  destruct (f x) eqn:E; [discriminate|]. constructor; auto.
Qed.

Lemma readProcfile_no_entry colors GOOS fs cfg g content :
  Stat fs (Procfile cfg) = None ->
  ReadFile fs (Procfile cfg) = inr content ->
  Procfile.entries content = [] ->
  readProcfile colors GOOS fs cfg g
  = Done (Some (errorString "no valid entry"), cfg, mkGlobals [] (maxProcNameLength g)).
Proof.
  intros HS HR HE. unfold readProcfile. rewrite HS, HR.
  unfold Procfile.entries, Procfile.lines in HE.
  destruct (readLines_total colors GOOS (Strings.Split content "010")
              cfg (mkGlobals [] (maxProcNameLength g)) 0) as [[[cfg1 g1] i1] E].
  - eapply Forall_impl; [apply filter_nil_Forall, HE|].
    apply isEntry_false_no_colon_first.
  - intros Hne. contradiction.
  - rewrite E. cbn [mbind Run_bind].
    apply readLines_Done in E as (Hp & _ & Hc & Hm).
    rewrite HE in Hp, Hc, Hm. simpl in Hp, Hc, Hm. subst cfg1.
    rewrite Hp. simpl. destruct g1 as [ps m]. simpl in *. subst. reflexivity.
Qed.

(** C2: when the Procfile is missing, cannot be read, or has no entry
    line, [readProcfile] returns an error (and not [nil] with an empty
    registry), and [start] returns that error to its caller without
    having called [startProcs]: the state [startProcs] works on is the
    one [start] was given. *)
Theorem config_error_aborts_start colors GOOS (OS : Type)
    (startProcs : Config -> Globals -> OS -> Run (option error * Globals * OS))
    fs cfg g (os : OS) :
  (is_Some (Stat fs (Procfile cfg))
   \/ (exists e, ReadFile fs (Procfile cfg) = inl e)
   \/ (exists content, ReadFile fs (Procfile cfg) = inr content
                       /\ Procfile.entries content = [])) ->
  exists e g1,
    readProcfile colors GOOS fs cfg g = Done (Some e, cfg, g1)
    /\ start colors GOOS startProcs fs cfg g os = Done (Some e, cfg, g1, os).
Proof.
  intros H.
  assert (Hr : exists e g1, readProcfile colors GOOS fs cfg g = Done (Some e, cfg, g1)).
  { destruct (Stat fs (Procfile cfg)) as [e|] eqn:HS.
    - unfold readProcfile. rewrite HS. destruct (IsNotExist e); eauto.
    - destruct H as [[e He]|[[e He]|(content & HR & HE)]]; [discriminate| |].
      + unfold readProcfile. rewrite HS, He. eauto.
      + erewrite readProcfile_no_entry by eauto. eauto. }
  destruct Hr as (e & g1 & Hr). exists e, g1. split; [exact Hr|].
  unfold start. rewrite Hr. reflexivity.
Qed.

Lemma config_error_aborts_start_witness :
  exists e g1,
    readProcfile Sample.palette "linux" Sample.noFile (Sample.startConfig [] 5000)
      Sample.noGlobals = Done (Some e, Sample.startConfig [] 5000, g1)
    /\ start Sample.palette "linux" (Supervisor.startProcs (fun _ _ => Some 1))
         Sample.noFile (Sample.startConfig [] 5000) Sample.noGlobals []
       = Done (Some e, Sample.startConfig [] 5000, g1, []).
Proof.
  apply (config_error_aborts_start Sample.palette "linux" (list Supervisor.Instance)
           (Supervisor.startProcs (fun _ _ => Some 1))
           Sample.noFile (Sample.startConfig [] 5000) Sample.noGlobals []).
  left. simpl. eexists. reflexivity.
Defined.

Lemma readLine_colon_first colors GOOS line st :
  Procfile.startsWith ":" line = true ->
  readLine colors GOOS line st = Panic (runtimeError "index out of range [0] with length 0").
Proof.
  destruct st as [[cfg g] index]. destruct line as [|c r]; simpl; [discriminate|].
  intros E. unfold readLine, Strings.SplitN2. simpl. rewrite E. reflexivity.
Qed.

Lemma readLine_no_exit colors GOOS line st code :
  readLine colors GOOS line st <> Exit code.
Proof.
  destruct st as [[cfg g] index]. unfold readLine.
  destruct (Strings.SplitN2 line ":") as [|t0 [|t1 [|? ?]]]; try discriminate.
  destruct (String.get 0 t0); [|discriminate].
  destruct (Ascii.eqb _ _); [discriminate|].
  destruct (_ =? 0); discriminate.
Qed.

Lemma readLines_colon_first colors GOOS ls : forall st,
  Exists (fun l => Procfile.startsWith ":" l = true) ls ->
  exists v, readLines colors GOOS ls st = Panic v.
Proof.
  induction ls as [|line rest IH]; intros st H; [inversion H|].
  cbn [readLines].
  destruct (readLine colors GOOS line st) as [st1|v|code] eqn:E; cbn [mbind Run_bind].
  - apply IH. inversion H as [? ? Hl|? ? Hr]; subst; [|exact Hr].
    rewrite readLine_colon_first in E by exact Hl. discriminate.
  - eauto.
  - exfalso. eapply readLine_no_exit, E.
Qed.

(** C9, what the code does: with a file that can be read and a palette
    that is not empty, [readProcfile] panics exactly when some line of
    the file begins with [:]; on every other content it returns. *)
Theorem readProcfile_panics_iff_colon_first colors GOOS fs cfg g content :
  colors <> [] ->
  Stat fs (Procfile cfg) = None ->
  ReadFile fs (Procfile cfg) = inr content ->
  (exists v, readProcfile colors GOOS fs cfg g = Panic v)
  <-> Exists (fun l => Procfile.startsWith ":" l = true) (Procfile.lines content).
Proof.
  intros Hc HS HR. unfold readProcfile. rewrite HS, HR. split.
  - intros [v Hv].
    destruct (decide (Exists (fun l => Procfile.startsWith ":" l = true)
                        (Procfile.lines content))) as [He|Hn]; [exact He|].
    exfalso. apply not_Exists_Forall in Hn; [|intros x; apply _].
    destruct (readLines_total colors GOOS (Procfile.lines content)
                cfg (mkGlobals [] (maxProcNameLength g)) 0) as [[[cfg1 g1] i1] E].
    + eapply Forall_impl; [exact Hn|]. intros l Hl. simpl in Hl.
      destruct (Procfile.startsWith ":" l); [contradiction|reflexivity].
    + intros _. destruct colors; [contradiction|simpl; lia].
    + unfold Procfile.lines in E. rewrite E in Hv. cbn [mbind Run_bind] in Hv.
      destruct (_ =? 0); discriminate.
  - intros He.
    destruct (readLines_colon_first colors GOOS _
                (cfg, mkGlobals [] (maxProcNameLength g), 0) He) as [v Hv].
    unfold Procfile.lines in Hv. rewrite Hv. eauto.
Qed.

Lemma readProcfile_panics_iff_colon_first_witness :
  (exists v, readProcfile Sample.palette "linux"
               (Sample.oneFile "Procfile" Sample.colonFirst)
               (Sample.startConfig [] 5000) Sample.noGlobals = Panic v)
  <-> Exists (fun l => Procfile.startsWith ":" l = true)
             (Procfile.lines Sample.colonFirst).
Proof.
  apply (readProcfile_panics_iff_colon_first Sample.palette "linux"
           (Sample.oneFile "Procfile" Sample.colonFirst)
           (Sample.startConfig [] 5000) Sample.noGlobals Sample.colonFirst).
  - discriminate.
  - reflexivity.
  - reflexivity.
Defined.

(** C9 at the failing input: a Procfile whose second line is
    [: sleep 2] makes [readProcfile] panic on [tokens[0][0]]. *)
Lemma readProcfile_colon_first_panics :
  readProcfile Sample.palette "linux" (Sample.oneFile "Procfile" Sample.colonFirst)
    (Sample.startConfig [] 5000) Sample.noGlobals
  = Panic (runtimeError "index out of range [0] with length 0").
Proof. vm_compute. reflexivity. Qed.

(** ** [start] with process names *)

Lemma findIn_Some l n p : findIn l n = Some p -> name p = n /\ p ∈ l.
Proof.
  induction l as [|q rest IH]; simpl; [discriminate|].
  destruct (String.eqb (name q) n) eqn:E.
  - intros [= <-]. apply String.eqb_eq in E. split; [exact E|left].
  - intros H. apply IH in H as [H1 H2]. split; [exact H1|right; exact H2].
Qed.

Lemma findIn_None l n : findIn l n = None -> n ∉ map name l.
Proof.
  induction l as [|q rest IH]; simpl; intros H Hin; [inversion Hin|].
  destruct (String.eqb (name q) n) eqn:E; [discriminate|].
  apply String.eqb_neq in E. apply elem_of_cons in Hin as [->|Hin]; [done|].
  exact (IH H Hin).
Qed.

Lemma selectProcs_spec names : forall g tmp,
  match selectProcs names g tmp with
  | (None, g1, tmp1) =>
      Forall (fun v => v ∈ map name (procs g)) names
      /\ procs g1 = procs g
      /\ exists sel, tmp1 = tmp ++ sel /\ map name sel = names
                     /\ Forall (fun p => p ∈ procs g) sel
  | (Some e, g1, tmp1) =>
      exists v, v ∈ names /\ (v ∉ map name (procs g))
                /\ e = errorString ("unknown proc: " +:+ v)
  end.
Proof.
  induction names as [|v rest IH]; intros g tmp; simpl.
  - split; [constructor|]. split; [reflexivity|].
    exists []. rewrite app_nil_r. auto.
  - unfold findProc. destruct (findIn (procs g) v) as [p|] eqn:E.
    + apply findIn_Some in E as [Hn Hp].
      match goal with |- context [selectProcs rest ?g2 ?t2] =>
        specialize (IH g2 t2); destruct (selectProcs rest g2 t2) as [[[e|] g1] tmp1]
      end; cbn [procs] in IH.
      * destruct IH as (w & Hw & Hnw & ->). exists w. split; [right; exact Hw|auto].
      * destruct IH as (HF & Hg & sel & -> & Hs & HFs).
        split; [constructor; [|exact HF]|].
        { rewrite <- Hn. apply list_elem_of_fmap_2. exact Hp. }
        split; [exact Hg|]. exists (p :: sel). rewrite <- app_assoc. simpl.
        split; [reflexivity|]. split; [congruence|]. constructor; auto.
    + exists v. split; [left|]. split; [apply findIn_None, E|reflexivity].
Qed.

Lemma selectProcs_found names : forall g tmp g1 tmp1,
  selectProcs names g tmp = (None, g1, tmp1) ->
  procs g1 = procs g
  /\ maxProcNameLength g1 = longest (maxProcNameLength g) names
  /\ exists sel, tmp1 = tmp ++ sel
                 /\ Forall2 (fun v p => findProc g v = Some p) names sel.
Proof.
  induction names as [|v rest IH]; intros g tmp g1 tmp1 H; cbn [selectProcs] in H.
  - injection H as <- <-. split; [reflexivity|]. split; [reflexivity|].
    exists []. rewrite app_nil_r. split; [reflexivity|constructor].
  - destruct (findProc g v) as [p|] eqn:E; [|discriminate].
    apply IH in H. cbn [procs maxProcNameLength] in H.
    destruct H as (Hp & Hm & sel & -> & HF).
    split; [exact Hp|]. split; [exact Hm|].
    exists (p :: sel). rewrite <- app_assoc. split; [reflexivity|].
    constructor; [exact E|exact HF].
Qed.




(** ** Starting the batch *)

Section StartAllFacts.

Variable spawn : ProcInfo -> list (string * Z) -> option Z.




End StartAllFacts.

Section BatchFacts.

Variable spawn : ProcInfo -> list (string * Z) -> option Z.






End BatchFacts.




(** ** Defaults *)

Lemma rpc_port_unset (env : Env) :
  LookupEnv env "GOREMAN_RPC_PORT" = None -> defaultPort env = 8555.
Proof. unfold defaultPort, Getenv, LookupEnv. intros ->. reflexivity. Qed.

(** C8: without GOREMAN_RPC_PORT and GOREMAN_RPC_ADDR the defaults are
    port 8555 and address 0.0.0.0; a GOREMAN_RPC_PORT that [Atoi] accepts
    as [i] makes the port [uint(i)], which is [i] itself when [i] is not
    negative; GOREMAN_RPC_ADDR, whatever its value, is the address. *)
Theorem rpc_defaults (env : Env) :
  (LookupEnv env "GOREMAN_RPC_PORT" = None -> defaultPort env = 8555)
  /\ (LookupEnv env "GOREMAN_RPC_ADDR" = None -> defaultAddr env = "0.0.0.0")
  /\ (forall s i, LookupEnv env "GOREMAN_RPC_PORT" = Some s ->
        Strconv.Atoi s = Some i ->
        defaultPort env = Uint.of_int i /\ (0 <= i -> defaultPort env = i))
  /\ (forall s, LookupEnv env "GOREMAN_RPC_ADDR" = Some s -> defaultAddr env = s).
Proof.
  unfold defaultPort, defaultAddr, Getenv, LookupEnv. repeat split.
  - intros ->. reflexivity.
  - intros ->. reflexivity.
  - rewrite H. simpl. destruct s; [discriminate|]. simpl. rewrite H0. reflexivity.
  - intros Hi. rewrite H. simpl. destruct s; [discriminate|]. simpl. rewrite H0.
    unfold Strconv.Atoi in H0.
    destruct (match String a s with
              | String "-"%char r => option_map Z.opp (Strconv.unsigned r)
              | String "+"%char r => Strconv.unsigned r
              | _ => Strconv.unsigned (String a s)
              end) as [j|]; [|discriminate].
    destruct (Int.in_rangeb j) eqn:E; [|discriminate]. injection H0 as ->.
    unfold Int.in_rangeb, Int.max in E. apply andb_true_iff in E as [_ E].
    apply Z.leb_le in E. unfold Uint.of_int, Uint.modulus, Uint.bits.
    apply Z.mod_small. lia.
  - intros s ->. reflexivity.
Qed.

Lemma rpc_defaults_witness :
  defaultPort ∅ = 8555 /\ defaultAddr ∅ = "0.0.0.0"
  /\ defaultPort {[ "GOREMAN_RPC_PORT" := "9000" ]} = 9000
  /\ defaultAddr {[ "GOREMAN_RPC_ADDR" := "127.0.0.1" ]} = "127.0.0.1".
Proof.
  destruct (rpc_defaults ∅) as (H1 & H2 & _).
  destruct (rpc_defaults {[ "GOREMAN_RPC_PORT" := "9000" ]}) as (_ & _ & H3 & _).
  destruct (rpc_defaults {[ "GOREMAN_RPC_ADDR" := "127.0.0.1" ]}) as (_ & _ & _ & H4).
  split; [apply H1; reflexivity|]. split; [apply H2; reflexivity|]. split.
  - apply (H3 "9000" 9000); [reflexivity|reflexivity|discriminate].
  - apply H4. reflexivity.
Defined.

(** ** The base port after parsing the flags *)

Lemma configFlags_keep flag fl :
  assoc configFlags flag = Some fl -> flag <> "b" -> keepsBasePort fl.
Proof.
  unfold configFlags. cbn [assoc]. intros H Hb.
  repeat match type of H with
  | (if String.eqb ?k flag then _ else _) = _ =>
      destruct (String.eqb k flag) eqn:E;
      [ first [ injection H as <-; intros v c; reflexivity
              | apply String.eqb_eq in E; congruence ]
      | clear E ]
  end.
  discriminate.
Qed.

Lemma Cut_empty_key s c v : Strings.Cut s c = Some (EmptyString, v) -> s = String c v.
Proof.
  destruct s as [|c' r]; simpl; [discriminate|].
  destruct (Ascii.eqb c' c) eqn:E.
  - apply Ascii.eqb_eq in E. congruence.
  - destruct (Strings.Cut r c) as [[a b]|]; discriminate.
Qed.

Section FlagFacts.

Variable ParseUint : string -> Z * bool.

Lemma parseOne_BasePort cfg s rest :
  setsFlag "b" s = false ->
  match Flag.parseOne ParseUint configFlags cfg s rest with
  | Flag.Stop _ => True
  | Flag.Fail _ cfg' _ => BasePort cfg' = BasePort cfg
  | Flag.Seen cfg' _ => BasePort cfg' = BasePort cfg
  end.
Proof.
  intros Hb. unfold Flag.parseOne.
  destruct s as [|c0 [|c1 s2]]; try exact I.
  destruct (Ascii.eqb c0 "-") eqn:E0; [|exact I]. apply Ascii.eqb_eq in E0. subst c0.
  cbn [negb].
  destruct (Ascii.eqb c1 "-" && String.eqb s2 EmptyString) eqn:E1; [exact I|].
  set (name0 := if Ascii.eqb c1 "-" then s2 else String c1 s2).
  assert (Hs : String "-" (String c1 s2) = "-" +:+ name0 \/
               String "-" (String c1 s2) = "--" +:+ name0).
  { subst name0. destruct (Ascii.eqb c1 "-") eqn:E; [|left; reflexivity].
    apply Ascii.eqb_eq in E. subst c1. right. reflexivity. }
  destruct name0 as [|n0 ntail]; [reflexivity|].
  destruct (Ascii.eqb n0 "-" || Ascii.eqb n0 "="); [reflexivity|].
  assert (Hname : forall flag hasValue value,
            match Strings.Cut ntail "=" with
            | Some (a, b) => (String n0 a, true, b)
            | None => (String n0 ntail, false, EmptyString)
            end = (flag, hasValue, value) -> flag <> "b").
  { intros flag hv value Hc ->.
    destruct (Strings.Cut ntail "=") as [[a b]|] eqn:HC.
    - inversion Hc; subst.
      apply Cut_empty_key in HC. subst ntail.
      destruct Hs as [Hs|Hs]; rewrite Hs in Hb; vm_compute in Hb; discriminate.
    - inversion Hc; subst.
      destruct Hs as [Hs|Hs]; rewrite Hs in Hb; vm_compute in Hb; discriminate. }
  destruct (match Strings.Cut ntail "=" with
            | Some (a, b) => (String n0 a, true, b)
            | None => (String n0 ntail, false, EmptyString)
            end) as [[flag hasValue] value].
  specialize (Hname flag hasValue value eq_refl).
  destruct (assoc configFlags flag) as [fl|] eqn:HA.
  - pose proof (configFlags_keep flag fl HA Hname) as Hk.
    destruct fl as [set|set|set]; simpl in Hk.
    + destruct hasValue; [apply Hk|]. destruct rest; [reflexivity|apply Hk].
    + destruct hasValue.
      * destruct (ParseUint value) as [v []]; apply Hk.
      * destruct rest as [|value' rest']; [reflexivity|].
        destruct (ParseUint value') as [v []]; apply Hk.
    + destruct hasValue; [|apply Hk].
      destruct (Flag.ParseBool value) as [v []]; apply Hk.
  - destruct (String.eqb flag "help" || String.eqb flag "h"); reflexivity.
Qed.

Lemma parseArgs_BasePort args : forall cfg,
  Forall (fun a => setsFlag "b" a = false) args ->
  BasePort (fst (fst (Flag.parseArgs ParseUint configFlags cfg args))) = BasePort cfg.
Proof.
  induction args as [args IH] using (induction_ltof1 _ (@length string)).
  unfold ltof in IH.
  intros cfg HF. destruct args as [|s rest]; [reflexivity|].
  inversion HF as [|? ? Hs Hrest]; subst. cbn [Flag.parseArgs].
  pose proof (parseOne_BasePort cfg s rest Hs) as H1.
  destruct (Flag.parseOne ParseUint configFlags cfg s rest) as [a|e cfg1 a|cfg1 [|]].
  - reflexivity.
  - exact H1.
  - destruct rest as [|v rest']; [exact H1|].
    rewrite IH; [exact H1|simpl; lia|]. inversion Hrest; assumption.
  - rewrite IH; [exact H1|simpl; lia|exact Hrest].
Qed.

End FlagFacts.

(** C10: when no argument sets the flag [b], the config that
    [ParseConfigWithFlagSet] returns has [BasePort = defaultPort()]:
    8555 when GOREMAN_RPC_PORT is not set, and whatever that variable
    makes of the RPC port otherwise; the struct tag of [BasePort] says
    5000. The call returns unless the flag set exits or panics on a
    parse error. *)
Theorem basePort_default_is_rpc_port ParseUint eh env args :
  Forall (fun a => setsFlag "b" a = false) args ->
  match ParseConfigWithFlagSet ParseUint eh env args with
  | Done (cfg, err) =>
      err = None
      /\ BasePort cfg = defaultPort env
      /\ (LookupEnv env "GOREMAN_RPC_PORT" = None -> BasePort cfg = 8555)
  | Exit _ => eh = Flag.ExitOnError
  | Panic _ => eh = Flag.PanicOnError
  end
  /\ GetTag ConfigType "BasePort" "default" = "5000".
Proof.
  intros HF. split; [|reflexivity].
  unfold ParseConfigWithFlagSet, Flag.Parse.
  pose proof (parseArgs_BasePort ParseUint args (configDefaults env) HF) as HB.
  destruct (Flag.parseArgs ParseUint configFlags (configDefaults env) args)
    as [[cfg rest] [e|]]; cbn [fst] in HB.
  - destruct eh; cbn [mbind Run_bind].
    + destruct (0 <? Z.of_nat (length rest)); (split; [reflexivity|]);
        cbn [BasePort set_Args]; rewrite HB; (split; [reflexivity|]);
        intros Hp; apply rpc_port_unset; exact Hp.
    + destruct e; reflexivity.
    + reflexivity.
  - cbn [mbind Run_bind].
    destruct (0 <? Z.of_nat (length rest)); (split; [reflexivity|]);
      cbn [BasePort set_Args]; rewrite HB; (split; [reflexivity|]);
      intros Hp; apply rpc_port_unset; exact Hp.
Qed.

Lemma basePort_default_is_rpc_port_witness :
  match ParseConfigWithFlagSet Strconv.ParseUint Flag.ExitOnError ∅
          ["-p"; "9000"; "-set-ports=false"; "start"; "web"] with
  | Done (cfg, err) =>
      err = None
      /\ BasePort cfg = defaultPort ∅
      /\ (LookupEnv (∅ : Env) "GOREMAN_RPC_PORT" = None -> BasePort cfg = 8555)
  | Exit _ => Flag.ExitOnError = Flag.ExitOnError
  | Panic _ => Flag.ExitOnError = Flag.PanicOnError
  end
  /\ GetTag ConfigType "BasePort" "default" = "5000".
Proof.
  apply (basePort_default_is_rpc_port Strconv.ParseUint Flag.ExitOnError ∅
           ["-p"; "9000"; "-set-ports=false"; "start"; "web"]).
  repeat constructor.
Defined.

(** * Further properties of the loader *)

Section LoaderMore.

Variable colors : list Z.
Variable GOOS : string.

Lemma newEntries_length es : forall cfg index,
  length (newEntries colors GOOS cfg index es) = length es.
Proof. induction es; intros; simpl; f_equal; auto. Qed.

Lemma readLine_skip line st :
  Procfile.isEntry line = false -> readLine colors GOOS line st = Done st.
Proof.
  destruct st as [[cfg g] index]. intros He.
  destruct (readLine_total colors GOOS line cfg g index) as [st E].
  - apply isEntry_false_no_colon_first, He.
  - rewrite He. discriminate.
  - rewrite E. apply readLine_Done in E. rewrite He in E. congruence.
Qed.

(** The loop sees only the entry lines. *)
Lemma readLines_entries ls : forall st,
  readLines colors GOOS ls st
  = readLines colors GOOS (List.filter Procfile.isEntry ls) st.
Proof.
  induction ls as [|line rest IH]; intros st; [reflexivity|].
  cbn [List.filter]. destruct (Procfile.isEntry line) eqn:He.
  - cbn [readLines]. destruct (readLine colors GOOS line st); cbn [mbind Run_bind]; auto.
  - cbn [readLines]. rewrite readLine_skip by exact He. cbn [mbind Run_bind]. apply IH.
Qed.

(** What a call that returns leaves behind, case by case. *)
Lemma readProcfile_Done fs cfg g err cfg' g' :
  readProcfile colors GOOS fs cfg g = Done (err, cfg', g') ->
  (cfg' = cfg /\ g' = g /\ is_Some err
   /\ (is_Some (Stat fs (Procfile cfg)) \/ exists e, ReadFile fs (Procfile cfg) = inl e))
  \/ exists content,
       Stat fs (Procfile cfg) = None /\ ReadFile fs (Procfile cfg) = inr content
       /\ procs g' = newEntries colors GOOS cfg 0 (Procfile.entries content)
       /\ cfg' = fold_left (fun c _ => lineConfig c) (Procfile.entries content) cfg
       /\ maxProcNameLength g'
          = fold_left (lineMax) (Procfile.entries content) (maxProcNameLength g)
       /\ err = match Procfile.entries content with
                | [] => Some (errorString "no valid entry")
                | _ => None
                end.
Proof.
  unfold readProcfile. intros H.
  destruct (Stat fs (Procfile cfg)) as [e|] eqn:HS.
  { left. destruct (IsNotExist e); injection H as <- <- <-; eauto 10. }
  destruct (ReadFile fs (Procfile cfg)) as [e|content] eqn:HR.
  { left. injection H as <- <- <-. eauto 10. }
  right. exists content.
  destruct (readLines colors GOOS (Strings.Split content "010")
              (cfg, mkGlobals [] (maxProcNameLength g), 0)) as [[[cfg1 g1] i1]| |] eqn:HL;
    cbn [mbind Run_bind] in H; try discriminate.
  apply readLines_Done in HL. cbn [procs app maxProcNameLength] in HL.
  destruct HL as (Hp & _ & Hc & Hm).
  fold (Procfile.lines content) in Hp, Hc, Hm. fold (Procfile.entries content) in Hp, Hc, Hm.
  assert (Hlen := newEntries_length (Procfile.entries content) cfg 0).
  rewrite <- Hp in Hlen.
  destruct (Z.of_nat (length (procs g1)) =? 0) eqn:E; injection H as <- <- <-;
    (split; [reflexivity|]); (split; [reflexivity|]); (split; [exact Hp|]);
    (split; [exact Hc|]); (split; [exact Hm|]).
  - destruct (Procfile.entries content); [reflexivity|]. simpl in Hlen. lia.
  - destruct (Procfile.entries content); [|reflexivity]. simpl in Hlen.
    rewrite Hlen in E. discriminate.
Qed.

Lemma fold_lineMax es : forall m,
  let m' := fold_left lineMax es m in
  m <= m'
  /\ Forall (fun line => Strings.len (Procfile.entryName line) <= m') es
  /\ (m' = m \/ Exists (fun line => m' = Strings.len (Procfile.entryName line)) es).
Proof.
  induction es as [|line rest IH]; intros m; cbn zeta; simpl.
  - split; [lia|]. split; [constructor|]. left. reflexivity.
  - specialize (IH (lineMax m line)). cbn zeta in IH. destruct IH as (H1 & H2 & H3).
    assert (Hm : m <= lineMax m line /\ Strings.len (Procfile.entryName line) <= lineMax m line
                 /\ (lineMax m line = m
                     \/ lineMax m line = Strings.len (Procfile.entryName line))).
    { unfold lineMax.
      destruct (Strings.len (Procfile.entryName line) >? m) eqn:E.
      - apply Z.gtb_lt in E. lia.
      - assert (~ (m < Strings.len (Procfile.entryName line))).
        { intros Hlt. apply Z.gtb_lt in Hlt. congruence. }
        lia. }
    destruct Hm as (Ha & Hb & Hc).
    split; [lia|]. split; [constructor; [lia|exact H2]|].
    destruct H3 as [H3|H3].
    + destruct Hc as [Hc|Hc]; [left; congruence|].
      right. left. congruence.
    + right. right. exact H3.
Qed.

Lemma fold_lineConfig (es : list string) : forall cfg,
  fold_left (fun c _ => lineConfig c) es cfg
  = if SetPorts cfg
    then match es with
         | [] => cfg
         | _ => set_BasePort ((BasePort cfg + 100 * Z.of_nat (length es)) mod Uint.modulus) cfg
         end
    else cfg.
Proof.
  induction es as [|line rest IH]; intros cfg.
  - simpl. destruct (SetPorts cfg); reflexivity.
  - cbn [fold_left]. rewrite IH. unfold lineConfig.
    destruct (SetPorts cfg) eqn:HS; [|rewrite HS; reflexivity].
    cbn [SetPorts set_BasePort]. rewrite HS.
    destruct rest as [|l2 rest].
    + unfold Uint.add. reflexivity.
    + cbn [BasePort set_BasePort]. unfold Uint.add. rewrite Zplus_mod_idemp_l.
      destruct cfg. unfold set_BasePort. simpl. f_equal. f_equal.
      cbn [length]. lia.
Qed.

End LoaderMore.

Lemma newEntries_names_Forall colors GOOS (P : string -> Prop) es : forall cfg index,
  Forall (fun line => P (Procfile.entryName line)) es ->
  Forall (fun p => P (name p)) (newEntries colors GOOS cfg index es).
Proof.
  induction es as [|l es IH]; intros cfg index H; simpl; [constructor|].
  inversion H; subst. constructor; auto.
Qed.

Lemma newEntries_names_Exists colors GOOS (P : string -> Prop) es : forall cfg index,
  Exists (fun line => P (Procfile.entryName line)) es ->
  Exists (fun p => P (name p)) (newEntries colors GOOS cfg index es).
Proof.
  induction es as [|l es IH]; intros cfg index H; simpl; [inversion H|].
  inversion H; subst; [left; assumption|right; auto].
Qed.

(** X1: after a successful load [maxProcNameLength] is at least its
    value before the call (the loader never resets it) and at least the
    length of every name in the registry, and it is one of these. *)
Theorem maxProcNameLength_after_load colors GOOS fs cfg g cfg' g' :
  readProcfile colors GOOS fs cfg g = Done (None, cfg', g') ->
  maxProcNameLength g <= maxProcNameLength g'
  /\ Forall (fun p => Strings.len (name p) <= maxProcNameLength g') (procs g')
  /\ (maxProcNameLength g' = maxProcNameLength g
      \/ Exists (fun p => maxProcNameLength g' = Strings.len (name p)) (procs g')).
Proof.
  intros H. apply readProcfile_Done in H as [(_ & _ & [e He] & _)|H]; [discriminate|].
  destruct H as (content & _ & _ & Hp & _ & Hm & _).
  pose proof (fold_lineMax (Procfile.entries content) (maxProcNameLength g)) as Hf.
  cbn zeta in Hf. rewrite <- Hm in Hf. destruct Hf as (H1 & H2 & H3).
  split; [exact H1|]. rewrite Hp. split.
  - apply (newEntries_names_Forall colors GOOS
             (fun n => Strings.len n <= maxProcNameLength g')), H2.
  - destruct H3 as [H3|H3]; [left; exact H3|right].
    apply (newEntries_names_Exists colors GOOS
             (fun n => maxProcNameLength g' = Strings.len n)), H3.
Qed.

Lemma maxProcNameLength_after_load_witness :
  maxProcNameLength (mkGlobals [] 40) <= maxProcNameLength (mkGlobals (procs (snd Fixture.once)) 40)
  /\ Forall (fun p => Strings.len (name p)
                      <= maxProcNameLength (mkGlobals (procs (snd Fixture.once)) 40))
            (procs (mkGlobals (procs (snd Fixture.once)) 40))
  /\ (maxProcNameLength (mkGlobals (procs (snd Fixture.once)) 40)
      = maxProcNameLength (mkGlobals [] 40)
      \/ Exists (fun p => maxProcNameLength (mkGlobals (procs (snd Fixture.once)) 40)
                          = Strings.len (name p))
                (procs (mkGlobals (procs (snd Fixture.once)) 40))).
Proof.
  apply (maxProcNameLength_after_load Sample.palette "linux" Fixture.fs Fixture.cfg
           (mkGlobals [] 40) (fst Fixture.once)).
  vm_compute. reflexivity.
Defined.

Lemma newEntries_noport colors GOOS es : forall cfg index,
  SetPorts cfg = false ->
  Forall (fun p => setPort p = false /\ port p = 0) (newEntries colors GOOS cfg index es).
Proof.
  induction es as [|line rest IH]; intros cfg index HS; simpl; [constructor|].
  constructor.
  - simpl. rewrite HS. auto.
  - apply IH. unfold lineConfig. rewrite HS. exact HS.
Qed.

(** X2: a successful load changes nothing of [cfg] but [BasePort]: with
    port assignment it is advanced by 100 for every entry loaded,
    modulo 2^64; without, [cfg] is as before and no entry has a port. *)
Theorem config_after_load colors GOOS fs cfg g cfg' g' :
  readProcfile colors GOOS fs cfg g = Done (None, cfg', g') ->
  if SetPorts cfg
  then cfg' = set_BasePort
                ((BasePort cfg + 100 * Z.of_nat (length (procs g'))) mod Uint.modulus) cfg
  else cfg' = cfg /\ Forall (fun p => setPort p = false /\ port p = 0) (procs g').
Proof.
  intros H. apply readProcfile_Done in H as [(_ & _ & [e He] & _)|H]; [discriminate|].
  destruct H as (content & _ & _ & Hp & Hc & _ & He).
  rewrite fold_lineConfig in Hc. rewrite Hp, newEntries_length.
  destruct (SetPorts cfg) eqn:HS.
  - destruct (Procfile.entries content); [discriminate|exact Hc].
  - split; [exact Hc|]. apply newEntries_noport, HS.
Qed.

Lemma config_after_load_witness :
  fst Fixture.once
  = set_BasePort
      ((BasePort Fixture.cfg + 100 * Z.of_nat (length (procs (snd Fixture.once))))
         mod Uint.modulus) Fixture.cfg.
Proof.
  apply (config_after_load Sample.palette "linux" Fixture.fs Fixture.cfg Sample.noGlobals
           (fst Fixture.once) (snd Fixture.once)).
  vm_compute. reflexivity.
Defined.

(** X3: when [readProcfile] returns an error, [cfg] is as it was; the
    globals are as they were too, unless the error is [no valid entry],
    in which case the registry has been emptied. *)
Theorem readProcfile_error_state colors GOOS fs cfg g e cfg' g' :
  readProcfile colors GOOS fs cfg g = Done (Some e, cfg', g') ->
  cfg' = cfg
  /\ (g' = g
      \/ (e = errorString "no valid entry" /\ g' = mkGlobals [] (maxProcNameLength g))).
Proof.
  intros H. apply readProcfile_Done in H as [(-> & -> & _)|H]; [auto|].
  destruct H as (content & _ & _ & Hp & Hc & Hm & He).
  destruct (Procfile.entries content); [|discriminate].
  simpl in *. injection He as ->. split; [exact Hc|]. right. split; [reflexivity|].
  destruct g'. simpl in *. congruence.
Qed.

Lemma readProcfile_error_state_witness :
  Fixture.cfg = Fixture.cfg
  /\ (mkGlobals [] 7 = mkGlobals (procs (snd Fixture.once)) 7
      \/ (errorString "no valid entry" = errorString "no valid entry"
          /\ mkGlobals [] 7
             = mkGlobals [] (maxProcNameLength (mkGlobals (procs (snd Fixture.once)) 7)))).
Proof.
  apply (readProcfile_error_state Sample.palette "linux"
           (Sample.oneFile "Procfile" Fixture.commentOnly) Fixture.cfg
           (mkGlobals (procs (snd Fixture.once)) 7)).
  vm_compute. reflexivity.
Defined.

Lemma findIn_elem l n : n ∈ map name l -> is_Some (findIn l n).
Proof.
  destruct (findIn l n) eqn:E; [eauto|]. intros H. exfalso. exact (findIn_None l n E H).
Qed.

(** X4: after a successful load [findProc] finds an entry for the
    trimmed key of every entry line of the file; the entry found has
    the name asked for and is in the registry, and that name is the key
    of an entry line; [findProc] answers [nil] exactly for the names
    that are the key of no entry line. *)
Theorem findProc_after_load colors GOOS fs cfg g cfg' g' :
  readProcfile colors GOOS fs cfg g = Done (None, cfg', g') ->
  exists content,
    ReadFile fs (Procfile cfg) = inr content
    /\ Forall (fun line => is_Some (findProc g' (Procfile.entryName line)))
              (Procfile.entries content)
    /\ forall n,
         match findProc g' n with
         | Some p => name p = n /\ p ∈ procs g'
                     /\ n ∈ map Procfile.entryName (Procfile.entries content)
         | None => n ∉ map Procfile.entryName (Procfile.entries content)
         end.
Proof.
  intros H. apply readProcfile_ok in H as (content & _ & HR & Hp & _).
  assert (Hn : map name (procs g') = map Procfile.entryName (Procfile.entries content)).
  { rewrite Hp. apply newEntries_names. }
  exists content. split; [exact HR|]. split.
  - apply Forall_forall. intros line Hl. apply findIn_elem. rewrite Hn.
    apply list_elem_of_fmap_2. exact Hl.
  - intros n. unfold findProc. destruct (findIn (procs g') n) as [p|] eqn:E.
    + apply findIn_Some in E as [Hname Hin]. split; [exact Hname|]. split; [exact Hin|].
      rewrite <- Hn, <- Hname. apply list_elem_of_fmap_2. exact Hin.
    + rewrite <- Hn. apply findIn_None, E.
Qed.

Lemma findProc_after_load_witness :
  exists content,
    ReadFile Fixture.fs (Procfile Fixture.cfg) = inr content
    /\ Forall (fun line => is_Some (findProc (snd Fixture.once) (Procfile.entryName line)))
              (Procfile.entries content)
    /\ forall n,
         match findProc (snd Fixture.once) n with
         | Some p => name p = n /\ p ∈ procs (snd Fixture.once)
                     /\ n ∈ map Procfile.entryName (Procfile.entries content)
         | None => n ∉ map Procfile.entryName (Procfile.entries content)
         end.
Proof.
  apply (findProc_after_load Sample.palette "linux" Fixture.fs Fixture.cfg Sample.noGlobals
           (fst Fixture.once)).
  vm_compute. reflexivity.
Defined.

(** X5: lines without a [:] and lines that begin with [#] have no
    effect: two readable files with the same entry lines, in the same
    order, make [readProcfile] end in the same way and leave the same
    configuration and globals. *)
Theorem only_entry_lines_matter colors GOOS fs1 fs2 cfg g content1 content2 :
  Stat fs1 (Procfile cfg) = None -> ReadFile fs1 (Procfile cfg) = inr content1 ->
  Stat fs2 (Procfile cfg) = None -> ReadFile fs2 (Procfile cfg) = inr content2 ->
  Procfile.entries content1 = Procfile.entries content2 ->
  readProcfile colors GOOS fs1 cfg g = readProcfile colors GOOS fs2 cfg g.
Proof.
  intros HS1 HR1 HS2 HR2 He. unfold readProcfile. rewrite HS1, HR1, HS2, HR2.
  rewrite (readLines_entries colors GOOS (Strings.Split content1 "010")).
  rewrite (readLines_entries colors GOOS (Strings.Split content2 "010")).
  unfold Procfile.entries, Procfile.lines in He. rewrite He. reflexivity.
Qed.

Lemma only_entry_lines_matter_witness :
  readProcfile Sample.palette "linux" Fixture.fs Fixture.cfg Sample.noGlobals
  = readProcfile Sample.palette "linux" (Sample.oneFile "Procfile" Fixture.webWorkerBare)
      Fixture.cfg Sample.noGlobals.
Proof.
  apply (only_entry_lines_matter Sample.palette "linux" Fixture.fs
           (Sample.oneFile "Procfile" Fixture.webWorkerBare) Fixture.cfg Sample.noGlobals
           Sample.webWorker Fixture.webWorkerBare); reflexivity.
Defined.

(** X6: after a successful load every [colorIndex] is a valid index
    into [colors]. *)
Theorem colorIndex_in_palette colors GOOS fs cfg g cfg' g' :
  readProcfile colors GOOS fs cfg g = Done (None, cfg', g') ->
  Forall (fun p => 0 <= colorIndex p < Z.of_nat (length colors)) (procs g').
Proof.
  intros H. apply readProcfile_ok in H as (content & _ & _ & Hp & _ & Hn & _).
  apply Forall_lookup. intros i p Hi. rewrite Hp in Hi.
  apply newEntries_color in Hi; [|lia]. rewrite Hi. apply Z.mod_pos_bound. lia.
Qed.

Lemma colorIndex_in_palette_witness :
  Forall (fun p => 0 <= colorIndex p < Z.of_nat (length Sample.palette))
         (procs (snd (Sample.load Sample.eightEntries Fixture.cfg))).
Proof.
  apply (colorIndex_in_palette Sample.palette "linux"
           (Sample.oneFile "Procfile" Sample.eightEntries) Fixture.cfg Sample.noGlobals
           (fst (Sample.load Sample.eightEntries Fixture.cfg))).
  vm_compute. reflexivity.
Defined.

(** X7: loading twice with the same [cfg] does not give the same ports
    again: with port assignment, the i-th entry of the second load gets
    the base port of the first plus 100 (n + i), modulo 2^64, where n
    is the number of entries the first load made. *)
Theorem reload_shifts_ports colors GOOS fs1 fs2 cfg g cfg1 g1 cfg2 g2 :
  SetPorts cfg = true ->
  readProcfile colors GOOS fs1 cfg g = Done (None, cfg1, g1) ->
  readProcfile colors GOOS fs2 cfg1 g1 = Done (None, cfg2, g2) ->
  forall (i : nat) p, procs g2 !! i = Some p ->
    port p = (BasePort cfg + 100 * (Z.of_nat (length (procs g1)) + Z.of_nat i))
             mod Uint.modulus.
Proof.
  intros HS H1 H2 i p Hi.
  pose proof (config_state := readProcfile_Done colors GOOS _ _ _ _ _ _ H1).
  destruct config_state as [(_ & _ & [e He] & _)|Hd]; [discriminate|].
  destruct Hd as (content & _ & _ & Hp & Hc & _ & He).
  rewrite fold_lineConfig, HS in Hc.
  assert (Hlen : length (procs g1) = length (Procfile.entries content)).
  { rewrite Hp. apply newEntries_length. }
  destruct (Procfile.entries content) as [|l es]; [discriminate|].
  rewrite <- Hlen in Hc. clear He Hp Hlen.
  apply readProcfile_ok in H2 as (content2 & _ & _ & Hp2 & _).
  rewrite Hp2 in Hi. apply newEntries_port in Hi.
  - destruct Hi as [_ ->]. subst cfg1. cbn [BasePort set_BasePort].
    rewrite Zplus_mod_idemp_l. f_equal. lia.
  - subst cfg1. exact HS.
  - subst cfg1. cbn [BasePort set_BasePort]. apply Z.mod_pos_bound. reflexivity.
Qed.

Lemma reload_shifts_ports_witness :
  port (mkProcInfo "worker" "sleep 100" None 5300 true 1 false None true)
  = (BasePort Fixture.cfg
     + 100 * (Z.of_nat (length (procs (snd Fixture.once))) + Z.of_nat 1))
    mod Uint.modulus.
Proof.
  apply (reload_shifts_ports Sample.palette "linux" Fixture.fs Fixture.fs Fixture.cfg
           Sample.noGlobals (fst Fixture.once) (snd Fixture.once)
           (fst Fixture.twice) (snd Fixture.twice) eq_refl).
  - vm_compute. reflexivity.
  - vm_compute. reflexivity.
  - vm_compute. reflexivity.
Defined.

(** * Further properties of the flags *)

Section FlagMore.

Variable ParseUint : string -> Z * bool.
Variable formal : list (string * Flag.Value).

Lemma parseOne_notFlag cfg s rest :
  notFlag s = true -> Flag.parseOne ParseUint formal cfg s rest = Flag.Stop (s :: rest).
Proof.
  unfold notFlag, Flag.parseOne. destruct s as [|c0 [|c1 s2]]; try reflexivity.
  simpl. intros ->. reflexivity.
Qed.

(** What [parseOne] leaves in [f.args] is the end of what it was given,
    and a value is taken from the next argument only if there is one. *)
Lemma parseOne_args cfg s rest :
  match Flag.parseOne ParseUint formal cfg s rest with
  | Flag.Stop a => a `suffix_of` (s :: rest)
  | Flag.Fail _ _ a => a `suffix_of` (s :: rest)
  | Flag.Seen _ next => next = true -> rest <> []
  end.
Proof.
  unfold Flag.parseOne.
  destruct s as [|c0 [|c1 s2]]; try reflexivity.
  destruct (negb (Ascii.eqb c0 "-")); [reflexivity|].
  destruct (Ascii.eqb c1 "-" && String.eqb s2 EmptyString); [apply suffix_cons_r; reflexivity|].
  destruct (if Ascii.eqb c1 "-" then s2 else String c1 s2) as [|n0 ntail]; [reflexivity|].
  destruct (Ascii.eqb n0 "-" || Ascii.eqb n0 "="); [reflexivity|].
  destruct (match Strings.Cut ntail "=" with
            | Some (a, b) => (String n0 a, true, b)
            | None => (String n0 ntail, false, EmptyString)
            end) as [[flag hasValue] value].
  destruct (assoc formal flag) as [[set|set|set]|].
  - destruct hasValue; [discriminate|]. destruct rest; [|discriminate].
    apply suffix_cons_r. reflexivity.
  - destruct hasValue.
    + destruct (ParseUint value) as [v []]; [discriminate|]. apply suffix_cons_r. reflexivity.
    + destruct rest as [|value' rest']; [apply suffix_cons_r; reflexivity|].
      destruct (ParseUint value') as [v []]; [discriminate|].
      do 2 apply suffix_cons_r. reflexivity.
  - destruct hasValue; [|discriminate].
    destruct (Flag.ParseBool value) as [v []]; [discriminate|]. apply suffix_cons_r. reflexivity.
  - destruct (String.eqb flag "help" || String.eqb flag "h"); apply suffix_cons_r; reflexivity.
Qed.

Lemma parseArgs_suffix args : forall cfg,
  snd (fst (Flag.parseArgs ParseUint formal cfg args)) `suffix_of` args.
Proof.
  induction args as [args IH] using (induction_ltof1 _ (@length string)).
  unfold ltof in IH. intros cfg. destruct args as [|s rest]; [reflexivity|].
  cbn [Flag.parseArgs]. pose proof (parseOne_args cfg s rest) as H1.
  destruct (Flag.parseOne ParseUint formal cfg s rest) as [a|e cfg1 a|cfg1 [|]];
    cbn [fst snd]; try exact H1.
  - destruct rest as [|v rest']; [apply suffix_nil|].
    do 2 apply suffix_cons_r. apply IH. simpl. lia.
  - apply suffix_cons_r. apply IH. simpl. lia.
Qed.

End FlagMore.

(** X8: when the first argument is no flag (or there is no argument),
    nothing is parsed: every field has its default and [Args] is the
    whole argument list, so flags written after the command are not
    seen as flags. *)
Theorem command_first_keeps_defaults ParseUint eh env args :
  match args with
  | [] => True
  | a :: _ => notFlag a = true
  end ->
  ParseConfigWithFlagSet ParseUint eh env args
  = Done (set_Args args (configDefaults env), None).
Proof.
  intros H. unfold ParseConfigWithFlagSet, Flag.Parse.
  destruct args as [|a rest]; [reflexivity|].
  cbn [Flag.parseArgs]. rewrite parseOne_notFlag by exact H. reflexivity.
Qed.

Lemma command_first_keeps_defaults_witness :
  ParseConfigWithFlagSet Strconv.ParseUint Flag.ExitOnError ∅ ["start"; "-b"; "6000"]
  = Done (set_Args ["start"; "-b"; "6000"] (configDefaults ∅), None).
Proof.
  apply (command_first_keeps_defaults Strconv.ParseUint Flag.ExitOnError ∅
           ["start"; "-b"; "6000"]).
  reflexivity.
Defined.

(** X9: the [Args] of the returned config are the end of the argument
    list, and they are empty only when the argument list is: when the
    flags use up every argument, [Args] is the whole list again. *)
Theorem Args_are_a_suffix ParseUint eh env args cfg err :
  ParseConfigWithFlagSet ParseUint eh env args = Done (cfg, err) ->
  Args cfg `suffix_of` args /\ (Args cfg = [] <-> args = []).
Proof.
  unfold ParseConfigWithFlagSet, Flag.Parse. intros H.
  pose proof (parseArgs_suffix ParseUint configFlags args (configDefaults env)) as Hs.
  destruct (Flag.parseArgs ParseUint configFlags (configDefaults env) args)
    as [[cfg1 rest] e]. cbn [fst snd] in Hs.
  assert (Hd : cfg = set_Args rest cfg1 /\ rest <> [] \/ cfg = set_Args args cfg1 /\ rest = []).
  { assert (Hr : (0 <? Z.of_nat (length rest)) = true -> rest <> []).
    { intros E ->. discriminate. }
    assert (Hr' : (0 <? Z.of_nat (length rest)) = false -> rest = []).
    { intros E. destruct rest; [reflexivity|]. apply Z.ltb_ge in E. cbn [length] in E. lia. }
    destruct e as [e|]; [destruct eh|]; cbn [mbind Run_bind] in H;
      try discriminate; try (destruct e; discriminate);
      (destruct (0 <? Z.of_nat (length rest)); injection H as <- _; [left|right]; auto). }
  destruct Hd as [[-> Hne]|[-> ->]]; cbn [Args set_Args].
  - split; [exact Hs|]. split; [contradiction|].
    intros ->. apply suffix_nil_inv in Hs. contradiction.
  - split; [reflexivity|tauto].
Qed.

Lemma Args_are_a_suffix_witness :
  Args (set_Args ["-p"; "9000"] (set_RpcPort 9000 (configDefaults ∅)))
    `suffix_of` ["-p"; "9000"]
  /\ (Args (set_Args ["-p"; "9000"] (set_RpcPort 9000 (configDefaults ∅))) = []
      <-> ["-p"; "9000"] = []).
Proof.
  apply (Args_are_a_suffix Strconv.ParseUint Flag.ExitOnError ∅ ["-p"; "9000"] _ None).
  vm_compute. reflexivity.
Defined.

(** X11: [-b v] with a value that [ParseUint] accepts as [n], and no
    later argument that sets [b], gives [BasePort = n]. *)
Theorem b_flag_sets_BasePort ParseUint eh env v n rest cfg err :
  ParseUint v = (n, true) ->
  Forall (fun a => setsFlag "b" a = false) rest ->
  ParseConfigWithFlagSet ParseUint eh env ("-b" :: v :: rest) = Done (cfg, err) ->
  BasePort cfg = n.
Proof.
  intros Hv HF. unfold ParseConfigWithFlagSet, Flag.Parse.
  assert (Hp : Flag.parseArgs ParseUint configFlags (configDefaults env) ("-b" :: v :: rest)
               = Flag.parseArgs ParseUint configFlags
                   (set_BasePort n (configDefaults env)) rest).
  { cbn [Flag.parseArgs]. unfold Flag.parseOne. simpl. rewrite Hv. reflexivity. }
  rewrite Hp.
  pose proof (parseArgs_BasePort ParseUint rest (set_BasePort n (configDefaults env)) HF) as HB.
  destruct (Flag.parseArgs ParseUint configFlags (set_BasePort n (configDefaults env)) rest)
    as [[cfg1 rest1] e]. cbn [fst] in HB.
  intros H.
  assert (Hc : BasePort cfg = BasePort cfg1).
  { destruct e as [e|]; [destruct eh|]; cbn [mbind Run_bind] in H;
      try discriminate; try (destruct e; discriminate);
      destruct (0 <? Z.of_nat (length rest1)); injection H as <- _; reflexivity. }
  rewrite Hc, HB. reflexivity.
Qed.

Lemma b_flag_sets_BasePort_witness :
  BasePort (set_Args ["start"] (set_BasePort 6000 (configDefaults ∅))) = 6000.
Proof.
  apply (b_flag_sets_BasePort Strconv.ParseUint Flag.ExitOnError ∅ "6000" 6000 ["start"]
           _ None).
  - vm_compute. reflexivity.
  - repeat constructor.
  - vm_compute. reflexivity.
Defined.

(** X12: a boolean flag does not take the next argument as its value:
    after [-set-ports] an argument that is no flag ends the parsing,
    port assignment stays on and that argument is the first of [Args];
    only [-set-ports=false] turns port assignment off. *)
Theorem bool_flag_takes_no_argument ParseUint eh env v rest :
  notFlag v = true ->
  ParseConfigWithFlagSet ParseUint eh env ("-set-ports" :: v :: rest)
  = Done (set_Args (v :: rest) (configDefaults env), None)
  /\ ParseConfigWithFlagSet ParseUint eh env ("-set-ports=false" :: v :: rest)
     = Done (set_Args (v :: rest) (set_SetPorts false (configDefaults env)), None).
Proof.
  intros H. unfold ParseConfigWithFlagSet, Flag.Parse. split.
  - cbn [Flag.parseArgs]. unfold Flag.parseOne at 1. simpl assoc. cbv iota beta.
    simpl. rewrite parseOne_notFlag by exact H. reflexivity.
  - cbn [Flag.parseArgs]. unfold Flag.parseOne at 1. simpl.
    rewrite parseOne_notFlag by exact H. reflexivity.
Qed.

Lemma bool_flag_takes_no_argument_witness :
  ParseConfigWithFlagSet Strconv.ParseUint Flag.ExitOnError ∅ ["-set-ports"; "false"; "start"]
  = Done (set_Args ["false"; "start"] (configDefaults ∅), None)
  /\ ParseConfigWithFlagSet Strconv.ParseUint Flag.ExitOnError ∅
       ["-set-ports=false"; "false"; "start"]
     = Done (set_Args ["false"; "start"] (set_SetPorts false (configDefaults ∅)), None).
Proof.
  apply (bool_flag_takes_no_argument Strconv.ParseUint Flag.ExitOnError ∅ "false" ["start"]).
  reflexivity.
Defined.

(** * Further properties of the commands *)

Lemma selectProcs_first_unknown pre v post : forall g tmp,
  Forall (fun u => u ∈ map name (procs g)) pre ->
  v ∉ map name (procs g) ->
  exists g1 tmp1,
    selectProcs (pre ++ v :: post) g tmp
    = (Some (errorString ("unknown proc: " +:+ v)), g1, tmp1)
    /\ procs g1 = procs g.
Proof.
  induction pre as [|u pre IH]; intros g tmp HF Hv; cbn [app selectProcs].
  - unfold findProc. destruct (findIn (procs g) v) as [p|] eqn:E.
    + exfalso. apply findIn_Some in E as [<- Hp]. apply Hv.
      apply list_elem_of_fmap_2. exact Hp.
    + eauto.
  - inversion HF as [|? ? Hu HF']; subst.
    unfold findProc. destruct (findIn_elem _ _ Hu) as [p E]. rewrite E.
    match goal with |- context [selectProcs _ ?g2 ?t2] =>
      destruct (IH g2 t2) as (g1 & tmp1 & Hs & Hp); [exact HF'|exact Hv|]
    end.
    exists g1, tmp1. split; [exact Hs|exact Hp].
Qed.

Lemma longest_spec names : forall m,
  m <= longest m names
  /\ Forall (fun v => Strings.len v <= longest m names) names
  /\ (longest m names = m \/ Exists (fun v => longest m names = Strings.len v) names).
Proof.
  unfold longest.
  induction names as [|v rest IH]; intros m; cbn [fold_left].
  - split; [lia|]. split; [constructor|]. left. reflexivity.
  - set (m1 := if Strings.len v >? m then Strings.len v else m).
    assert (Hm : m <= m1 /\ Strings.len v <= m1 /\ (m1 = m \/ m1 = Strings.len v)).
    { subst m1. destruct (Strings.len v >? m) eqn:E.
      - apply Z.gtb_lt in E. lia.
      - assert (~ (m < Strings.len v)) by (intros Hlt; apply Z.gtb_lt in Hlt; congruence).
        lia. }
    destruct Hm as (Ha & Hb & Hc). destruct (IH m1) as (H1 & H2 & H3).
    split; [lia|]. split; [constructor; [lia|exact H2]|].
    destruct H3 as [H3|H3]; [|right; right; exact H3].
    destruct Hc as [Hc|Hc]; [left; congruence|right; left; congruence].
Qed.

(** X13: when every given name is in the registry, [start] hands
    [startProcs] the entries that [findProc] returns for the names, one
    per name and in the order given, and a [maxProcNameLength] that is
    the length of the longest given name, whatever the loader had
    computed. *)
Theorem start_selects_by_findProc colors GOOS (OS : Type)
    (startProcs : Config -> Globals -> OS -> Run (option error * Globals * OS))
    fs cfg g (os : OS) cfg' g' cmd names :
  readProcfile colors GOOS fs cfg g = Done (None, cfg', g') ->
  Args cfg = cmd :: names ->
  names <> [] ->
  Forall (fun v => v ∈ map name (procs g')) names ->
  exists sel,
    Forall2 (fun v p => findProc g' v = Some p) names sel
    /\ Forall (fun v => Strings.len v <= longest 0 names) names
    /\ Exists (fun v => longest 0 names = Strings.len v) names
    /\ start colors GOOS startProcs fs cfg g os
       = ('(procsErr, g2, os2) ← startProcs cfg' (mkGlobals sel (longest 0 names)) os;
          Done (procsErr, cfg', g2, os2)).
Proof.
  intros Hr Ha Hne HF.
  pose proof (readProcfile_ok _ _ _ _ _ _ _ Hr) as (_ & _ & _ & _ & _ & _ & Ha').
  assert (Hlen : (1 <? Z.of_nat (length (Args cfg'))) = true).
  { rewrite Ha', Ha. destruct names; [contradiction|].
    apply Z.ltb_lt. cbn [length]. lia. }
  pose proof (selectProcs_spec names (mkGlobals (procs g') 0) []) as Hsel.
  destruct (selectProcs names (mkGlobals (procs g') 0) []) as [[[e|] g1] tmp] eqn:Es;
    cbn [procs] in Hsel.
  { destruct Hsel as (v & Hv & Hnv & _). exfalso.
    rewrite Forall_forall in HF. exact (Hnv (HF v Hv)). }
  apply selectProcs_found in Es as (_ & Hm & sel & -> & H2).
  cbn [maxProcNameLength app] in Hm.
  assert (H2' : Forall2 (fun v p => findProc g' v = Some p) names sel).
  { eapply Forall2_impl; [exact H2|]. intros v p Hvp. exact Hvp. }
  exists sel. split; [exact H2'|].
  destruct (longest_spec names 0) as (_ & Hl1 & Hl2).
  split; [exact Hl1|]. split.
  - destruct Hl2 as [Hl2|Hl2]; [|exact Hl2].
    destruct names as [|v rest]; [contradiction|]. inversion Hl1 as [|? ? Hv _]; subst.
    left. rewrite Hl2 in *. unfold Strings.len in *. lia.
  - unfold start. rewrite Hr. cbn [mbind Run_bind]. rewrite Hlen, Ha', Ha. cbn [tail].
    pose proof (selectProcs_spec names (mkGlobals (procs g') 0) []) as Hx.
    destruct (selectProcs names (mkGlobals (procs g') 0) []) as [[[e|] g2] tmp] eqn:Es.
    + destruct Hx as (v & Hv & Hnv & _). exfalso.
      rewrite Forall_forall in HF. exact (Hnv (HF v Hv)).
    + apply selectProcs_found in Es as (_ & Hm2 & sel2 & -> & H3).
      cbn [maxProcNameLength app] in Hm2. rewrite Hm2.
      assert (sel2 = sel).
      { clear -H2 H3. revert sel2 H3. induction H2; intros sel2 H3; inversion H3; subst.
        - reflexivity.
        - f_equal; [congruence|auto]. }
      subst sel2. reflexivity.
Qed.

Lemma start_selects_by_findProc_witness :
  exists sel,
    Forall2 (fun v p => findProc (snd (Sample.load Sample.webWorker
                                         (Sample.startConfig ["worker"; "web"; "worker"] 5000)))
                          v = Some p)
            ["worker"; "web"; "worker"] sel
    /\ Forall (fun v => Strings.len v <= longest 0 ["worker"; "web"; "worker"])
              ["worker"; "web"; "worker"]
    /\ Exists (fun v => longest 0 ["worker"; "web"; "worker"] = Strings.len v)
              ["worker"; "web"; "worker"]
    /\ start Sample.palette "linux" (Supervisor.startProcs (fun _ _ => Some 1))
         Fixture.fs (Sample.startConfig ["worker"; "web"; "worker"] 5000) Sample.noGlobals []
       = ('(procsErr, g2, os2) ←
            Supervisor.startProcs (fun _ _ => Some 1)
              (fst (Sample.load Sample.webWorker
                      (Sample.startConfig ["worker"; "web"; "worker"] 5000)))
              (mkGlobals sel (longest 0 ["worker"; "web"; "worker"])) [];
          Done (procsErr,
                fst (Sample.load Sample.webWorker
                       (Sample.startConfig ["worker"; "web"; "worker"] 5000)),
                g2, os2)).
Proof.
  apply (start_selects_by_findProc Sample.palette "linux" (list Supervisor.Instance)
           (Supervisor.startProcs (fun _ _ => Some 1)) Fixture.fs
           (Sample.startConfig ["worker"; "web"; "worker"] 5000) Sample.noGlobals []
           (fst (Sample.load Sample.webWorker
                   (Sample.startConfig ["worker"; "web"; "worker"] 5000)))
           (snd (Sample.load Sample.webWorker
                   (Sample.startConfig ["worker"; "web"; "worker"] 5000)))
           "start" ["worker"; "web"; "worker"]).
  - vm_compute. reflexivity.
  - reflexivity.
  - discriminate.
  - vm_compute. repeat constructor.
Defined.

(** X14: the error of [start] names the first given name that is not
    in the registry; the names before it do not matter, [startProcs] is
    not called, and the registry stays as it was loaded. *)
Theorem start_reports_first_unknown colors GOOS (OS : Type)
    (startProcs : Config -> Globals -> OS -> Run (option error * Globals * OS))
    fs cfg g (os : OS) cfg' g' cmd pre v post :
  readProcfile colors GOOS fs cfg g = Done (None, cfg', g') ->
  Args cfg = cmd :: pre ++ v :: post ->
  Forall (fun u => u ∈ map name (procs g')) pre ->
  v ∉ map name (procs g') ->
  exists g1,
    start colors GOOS startProcs fs cfg g os
    = Done (Some (errorString ("unknown proc: " +:+ v)), cfg', g1, os)
    /\ procs g1 = procs g'.
Proof.
  intros Hr Ha HF Hv.
  pose proof (readProcfile_ok _ _ _ _ _ _ _ Hr) as (_ & _ & _ & _ & _ & _ & Ha').
  assert (Hlen : (1 <? Z.of_nat (length (Args cfg'))) = true).
  { rewrite Ha', Ha. apply Z.ltb_lt. cbn [length]. rewrite length_app. cbn [length]. lia. }
  destruct (selectProcs_first_unknown pre v post (mkGlobals (procs g') 0) [] HF Hv)
    as (g1 & tmp1 & Hs & Hp).
  exists g1. split; [|exact Hp].
  unfold start. rewrite Hr. cbn [mbind Run_bind]. rewrite Hlen, Ha', Ha. cbn [tail].
  rewrite Hs. reflexivity.
Qed.

Lemma start_reports_first_unknown_witness :
  exists g1,
    start Sample.palette "linux" (Supervisor.startProcs (fun _ _ => Some 1)) Fixture.fs
      (Sample.startConfig ["web"; "db"; "cache"] 5000) Sample.noGlobals []
    = Done (Some (errorString ("unknown proc: " +:+ "db")),
            fst (Sample.load Sample.webWorker (Sample.startConfig ["web"; "db"; "cache"] 5000)),
            g1, [])
    /\ procs g1
       = procs (snd (Sample.load Sample.webWorker
                       (Sample.startConfig ["web"; "db"; "cache"] 5000))).
Proof.
  apply (start_reports_first_unknown Sample.palette "linux" (list Supervisor.Instance)
           (Supervisor.startProcs (fun _ _ => Some 1)) Fixture.fs
           (Sample.startConfig ["web"; "db"; "cache"] 5000) Sample.noGlobals []
           _ _ "start" ["web"] "db" ["cache"]).
  - vm_compute. reflexivity.
  - reflexivity.
  - vm_compute. repeat constructor.
  - vm_compute. intros H. inversion H as [|? ? ? H1]; subst.
    inversion H1 as [|? ? ? H2]; subst. inversion H2.
Defined.

Section MainFacts.

Variable colors : list Z.
Variable GOOS : string.
Context {OS : Type}.
Variable startProcs : Config -> Globals -> OS -> Run (option error * Globals * OS).
Variable run : string -> list string -> Z -> option error.
Variable export : Config -> string -> string -> option error.
Variable Chdir : string -> option error.
Variable osArgs : list string.


End MainFacts.

(** X15: a command that is none of check, run, export and start (help,
    version, or any other word), [run] without a command to send and
    [export] without exactly a format and a location all end in
    [Usage] or [ShowVersion]: the exit status is 0 and nothing is read
    or started. *)
Theorem other_commands_exit_0 colors GOOS (OS : Type)
    (startProcs : Config -> Globals -> OS -> Run (option error * Globals * OS))
    run export Chdir osArgs fs cfg g (os : OS) cmd rest :
  Args cfg = cmd :: rest ->
  (if negb (String.eqb (BaseDir cfg) EmptyString) then Chdir (BaseDir cfg) else None) = None ->
  (cmd ∉ ["check"; "run"; "export"; "start"]
   \/ (cmd = "run" /\ rest = [])
   \/ (cmd = "export" /\ length rest <> 2%nat)) ->
  MainWithConfig colors GOOS startProcs run export Chdir osArgs fs cfg g os = Exit 0.
Proof.
  intros Ha Hc Hcmd. unfold MainWithConfig. rewrite Hc, Ha.
  destruct Hcmd as [Hn|[[-> ->]|[-> Hl]]].
  - assert (E1 : String.eqb cmd "check" = false).
    { apply String.eqb_neq. intros ->. apply Hn. set_solver. }
    assert (E2 : String.eqb cmd "run" = false).
    { apply String.eqb_neq. intros ->. apply Hn. set_solver. }
    assert (E3 : String.eqb cmd "export" = false).
    { apply String.eqb_neq. intros ->. apply Hn. set_solver. }
    assert (E4 : String.eqb cmd "start" = false).
    { apply String.eqb_neq. intros ->. apply Hn. set_solver. }
    rewrite E1, E2, E3, E4.
    destruct (String.eqb cmd "help"); [reflexivity|].
    destruct (String.eqb cmd "version"); reflexivity.
  - reflexivity.
  - simpl. destruct rest as [|a [|b [|c rest']]]; try reflexivity.
    simpl in Hl. contradiction.
Qed.

Lemma other_commands_exit_0_witness :
  MainWithConfig Sample.palette "linux" (Supervisor.startProcs (fun _ _ => Some 1))
    (fun _ _ _ => None) (fun _ _ _ => None) (fun _ => None) ["goreman"]
    Fixture.fs (set_Args ["restart"; "web"] Fixture.cfg) Sample.noGlobals [] = Exit 0.
Proof.
  apply (other_commands_exit_0 Sample.palette "linux" (list Supervisor.Instance)
           (Supervisor.startProcs (fun _ _ => Some 1))
           (fun _ _ _ => None) (fun _ _ _ => None) (fun _ => None) ["goreman"]
           Fixture.fs (set_Args ["restart"; "web"] Fixture.cfg) Sample.noGlobals []
           "restart" ["web"]).
  - reflexivity.
  - reflexivity.
  - left. intros H. repeat (apply elem_of_cons in H as [H|H]; [discriminate|]).
    inversion H.
Defined.



(** X17: [Main()] works on the zero [Config], whose [Procfile] is the
    empty path: as [os.Stat] fails on it, the commands start and check
    given on the command line end with exit status 1 before anything
    is loaded or started. *)
Theorem Main_cannot_load colors GOOS (OS : Type)
    (startProcs : Config -> Globals -> OS -> Run (option error * Globals * OS))
    run export Chdir prog cmd rest fs g (os : OS) :
  is_Some (Stat fs EmptyString) ->
  cmd = "start" \/ cmd = "check" ->
  Main colors GOOS startProcs run export Chdir (prog :: cmd :: rest) fs g os = Exit 1.
Proof.
  intros [e He] Hcmd. unfold Main, MainWithConfig. cbn [BaseDir zeroConfig Args].
  assert (Hr : exists e', readProcfile colors GOOS fs zeroConfig g
                          = Done (Some e', zeroConfig, g)).
  { unfold readProcfile. cbn [Procfile zeroConfig]. rewrite He.
    destruct (IsNotExist e); eauto. }
  destruct Hr as [e' Hr].
  destruct Hcmd as [-> | ->]; simpl.
  - unfold start. rewrite Hr. reflexivity.
  - unfold check. rewrite Hr. reflexivity.
Qed.

Lemma Main_cannot_load_witness :
  Main Sample.palette "linux" (Supervisor.startProcs (fun _ _ => Some 1))
    (fun _ _ _ => None) (fun _ _ _ => None) (fun _ => None)
    ("goreman" :: "start" :: ["web"]) Fixture.fs Sample.noGlobals [] = Exit 1.
Proof.
  apply (Main_cannot_load Sample.palette "linux" (list Supervisor.Instance)
           (Supervisor.startProcs (fun _ _ => Some 1))
           (fun _ _ _ => None) (fun _ _ _ => None) (fun _ => None)
           "goreman" "start" ["web"] Fixture.fs Sample.noGlobals []).
  - eexists. reflexivity.
  - left. reflexivity.
Defined.

(** * Names and commands as trimmed pieces of a line *)

Lemma append_cons x a b : String.append (String x a) b = String x (String.append a b).
Proof. reflexivity. Qed.

Lemma append_nil_l b : String.append EmptyString b = b.
Proof. reflexivity. Qed.

Lemma append_nil_r s : String.append s EmptyString = s.
Proof.
  induction s as [|x s IH]; [reflexivity|]. rewrite append_cons, IH. reflexivity.
Qed.

Lemma append_assoc a b c :
  String.append (String.append a b) c = String.append a (String.append b c).
Proof.
  induction a as [|x a IH]; [reflexivity|]. rewrite !append_cons, IH. reflexivity.
Qed.

Lemma rev_append a b :
  Strings.rev (String.append a b) = String.append (Strings.rev b) (Strings.rev a).
Proof.
  induction a as [|x a IH].
  - rewrite append_nil_l. cbn [Strings.rev]. symmetry. apply append_nil_r.
  - rewrite append_cons. cbn [Strings.rev]. rewrite IH. apply append_assoc.
Qed.

Lemma rev_involutive s : Strings.rev (Strings.rev s) = s.
Proof.
  induction s as [|x s IH]; [reflexivity|].
  cbn [Strings.rev]. rewrite rev_append, IH. reflexivity.
Qed.

Lemma hasByte_append c a b :
  Procfile.hasByte c (String.append a b) = Procfile.hasByte c a || Procfile.hasByte c b.
Proof.
  induction a as [|x a IH]; [reflexivity|].
  rewrite append_cons. cbn [Procfile.hasByte]. rewrite IH. apply orb_assoc.
Qed.

Lemma hasByte_rev c s : Procfile.hasByte c (Strings.rev s) = Procfile.hasByte c s.
Proof.
  induction s as [|x s IH]; [reflexivity|].
  cbn [Strings.rev]. rewrite hasByte_append, IH. cbn [Procfile.hasByte].
  rewrite orb_false_r. apply orb_comm.
Qed.

(** Both trimming loops return the end of their argument, and what
    they return does not begin with an ASCII white-space byte. *)
Lemma TrimLeftSpace_spec n : forall s,
  (String.length s <= n)%nat ->
  (exists pre, s = String.append pre (Strings.TrimLeftSpace s))
  /\ noSpaceFirst (Strings.TrimLeftSpace s) = true.
Proof.
  induction n as [|n IH]; intros s Hn.
  - destruct s; [|simpl in Hn; lia]. simpl. split; [exists EmptyString|]; reflexivity.
  - destruct s as [|c r]; [simpl; split; [exists EmptyString|]; reflexivity|].
    simpl in Hn. cbn [Strings.TrimLeftSpace].
    destruct (Strings.asciiSpace c) eqn:Ec.
    { destruct (IH r) as [[pre Hp] Hf]; [lia|]. split; [|exact Hf].
      exists (String c pre). rewrite append_cons. congruence. }
    assert (Hs : (exists pre, String c r = String.append pre (String c r))
                 /\ noSpaceFirst (String c r) = true).
    { split; [exists EmptyString; reflexivity|]. simpl. rewrite Ec. reflexivity. }
    destruct r as [|d r2]; [exact Hs|].
    destruct (Strings.space2 c d).
    { destruct (IH r2) as [[pre Hp] Hf]; [simpl in Hn; lia|]. split; [|exact Hf].
      exists (String c (String d pre)). rewrite !append_cons. congruence. }
    destruct r2 as [|e r3]; [exact Hs|].
    destruct (Strings.space3 c d e); [|exact Hs].
    destruct (IH r3) as [[pre Hp] Hf]; [simpl in Hn; lia|]. split; [|exact Hf].
    exists (String c (String d (String e pre))). rewrite !append_cons. congruence.
Qed.

Lemma trimRev_spec n : forall s,
  (String.length s <= n)%nat ->
  (exists pre, s = String.append pre (Strings.trimRev s))
  /\ noSpaceFirst (Strings.trimRev s) = true.
Proof.
  induction n as [|n IH]; intros s Hn.
  - destruct s; [|simpl in Hn; lia]. simpl. split; [exists EmptyString|]; reflexivity.
  - destruct s as [|c r]; [simpl; split; [exists EmptyString|]; reflexivity|].
    simpl in Hn. cbn [Strings.trimRev].
    destruct (Strings.asciiSpace c) eqn:Ec.
    { destruct (IH r) as [[pre Hp] Hf]; [lia|]. split; [|exact Hf].
      exists (String c pre). rewrite append_cons. congruence. }
    assert (Hs : (exists pre, String c r = String.append pre (String c r))
                 /\ noSpaceFirst (String c r) = true).
    { split; [exists EmptyString; reflexivity|]. simpl. rewrite Ec. reflexivity. }
    destruct r as [|d r2]; [exact Hs|].
    destruct (Strings.space2 d c).
    { destruct (IH r2) as [[pre Hp] Hf]; [simpl in Hn; lia|]. split; [|exact Hf].
      exists (String c (String d pre)). rewrite !append_cons. congruence. }
    destruct r2 as [|e r3]; [exact Hs|].
    destruct (Strings.space3 e d c); [|exact Hs].
    destruct (IH r3) as [[pre Hp] Hf]; [simpl in Hn; lia|]. split; [|exact Hf].
    exists (String c (String d (String e pre))). rewrite !append_cons. congruence.
Qed.

Lemma noSpaceFirst_prefix a b :
  noSpaceFirst (String.append a b) = true -> noSpaceFirst a = true.
Proof. destruct a; [reflexivity|]. rewrite append_cons. auto. Qed.

(** [TrimSpace] returns a piece of its argument, [s = pre ++ TrimSpace
    s ++ post], that neither begins nor ends with ASCII white space. *)
Lemma TrimSpace_spec s :
  (exists pre post,
     s = String.append pre (String.append (Strings.TrimSpace s) post))
  /\ trimmedASCII (Strings.TrimSpace s) = true.
Proof.
  unfold Strings.TrimSpace, Strings.TrimRightSpace, trimmedASCII.
  destruct (TrimLeftSpace_spec (String.length s) s (le_n _)) as [[pre Hp] Hf].
  set (t := Strings.TrimLeftSpace s) in *.
  destruct (trimRev_spec (String.length (Strings.rev t)) (Strings.rev t) (le_n _))
    as [[q Hq] Hg].
  set (u := Strings.trimRev (Strings.rev t)) in *.
  assert (Ht : t = String.append (Strings.rev u) (Strings.rev q)).
  { rewrite <- rev_append, <- Hq, rev_involutive. reflexivity. }
  split.
  - exists pre, (Strings.rev q). rewrite <- Ht. exact Hp.
  - rewrite rev_involutive, Hg, andb_true_r.
    apply (noSpaceFirst_prefix _ (Strings.rev q)). rewrite <- Ht. exact Hf.
Qed.

Lemma Cut_key_value s c k v :
  Strings.Cut s c = Some (k, v) ->
  s = String.append k (String c v) /\ Procfile.hasByte c k = false.
Proof.
  revert k. induction s as [|x s IH]; intros k; simpl; [discriminate|].
  destruct (Ascii.eqb x c) eqn:E.
  - intros [= <- <-]. apply Ascii.eqb_eq in E. subst x. split; reflexivity.
  - destruct (Strings.Cut s c) as [[a b]|]; [|discriminate].
    intros [= <- <-]. destruct (IH a eq_refl) as [-> Hb].
    split; [reflexivity|]. cbn [Procfile.hasByte]. rewrite E, Hb. reflexivity.
Qed.

Lemma TrimSpace_hasByte c s :
  Procfile.hasByte c s = false -> Procfile.hasByte c (Strings.TrimSpace s) = false.
Proof.
  destruct (TrimSpace_spec s) as [(pre & post & Hs) _]. intros H.
  rewrite Hs, !hasByte_append in H.
  apply orb_false_iff in H as [_ H]. apply orb_false_iff in H as [H _]. exact H.
Qed.

Lemma entryName_clean line :
  Procfile.hasByte ":" (Procfile.entryName line) = false
  /\ trimmedASCII (Procfile.entryName line) = true.
Proof.
  unfold Procfile.entryName, Procfile.key. split; [|apply TrimSpace_spec].
  apply TrimSpace_hasByte.
  destruct (Strings.Cut line ":") as [[k v]|] eqn:E.
  - apply Cut_key_value in E. tauto.
  - apply Cut_None_hasByte, E.
Qed.

(** X19: after a successful load no name in the registry contains a
    [:], and no name begins or ends with an ASCII white-space byte. *)
Theorem names_are_clean colors GOOS fs cfg g cfg' g' :
  readProcfile colors GOOS fs cfg g = Done (None, cfg', g') ->
  Forall (fun p => Procfile.hasByte ":" (name p) = false /\ trimmedASCII (name p) = true)
         (procs g').
Proof.
  intros H. apply readProcfile_ok in H as (content & _ & _ & Hp & _).
  rewrite Hp.
  apply (newEntries_names_Forall colors GOOS
           (fun n => Procfile.hasByte ":" n = false /\ trimmedASCII n = true)).
  apply Forall_forall. intros line _. apply entryName_clean.
Qed.

Lemma names_are_clean_witness :
  Forall (fun p => Procfile.hasByte ":" (name p) = false /\ trimmedASCII (name p) = true)
         (procs (snd (Sample.load Sample.twiceWeb Fixture.cfg))).
Proof.
  apply (names_are_clean Sample.palette "linux" (Sample.oneFile "Procfile" Sample.twiceWeb)
           Fixture.cfg Sample.noGlobals (fst (Sample.load Sample.twiceWeb Fixture.cfg))).
  vm_compute. reflexivity.
Defined.

(** * The Windows rewriting *)

Lemma replaceVars_no_dollar fuel : forall s,
  Procfile.hasByte "$" s = false -> Regexp.replaceVars fuel s = s.
Proof.
  induction fuel as [|fuel IH]; intros s H; [reflexivity|].
  destruct s as [|c r]; [reflexivity|].
  cbn [Procfile.hasByte] in H. apply orb_false_iff in H as [Hc Hr].
  cbn [Regexp.replaceVars]. rewrite Hc, IH by exact Hr. reflexivity.
Qed.

Lemma Split_hasByte c sep s :
  Procfile.hasByte c s = false ->
  Forall (fun l => Procfile.hasByte c l = false) (Strings.Split s sep).
Proof.
  induction s as [|x s IH]; intros H; cbn [Strings.Split].
  - constructor; [reflexivity|constructor].
  - cbn [Procfile.hasByte] in H. apply orb_false_iff in H as [Hx Hs].
    specialize (IH Hs). destruct (Ascii.eqb x sep).
    + constructor; [reflexivity|exact IH].
    + destruct (Strings.Split s sep) as [|h t]; constructor.
      * cbn [Procfile.hasByte]. rewrite Hx. reflexivity.
      * constructor.
      * cbn [Procfile.hasByte]. rewrite Hx. inversion IH; subst. assumption.
      * inversion IH; subst. assumption.
Qed.

Lemma readLine_no_dollar colors GOOS1 GOOS2 line st :
  Procfile.hasByte "$" line = false ->
  readLine colors GOOS1 line st = readLine colors GOOS2 line st.
Proof.
  intros H. destruct st as [[cfg g] index]. unfold readLine, Strings.SplitN2.
  destruct (Strings.Cut line ":") as [[k v]|] eqn:E; [|reflexivity].
  apply Cut_key_value in E as [-> _].
  rewrite hasByte_append in H. apply orb_false_iff in H as [_ H].
  cbn [Procfile.hasByte] in H. apply orb_false_iff in H as [_ H].
  apply TrimSpace_hasByte in H.
  assert (Hv : forall G, (if String.eqb G "windows"
                          then Regexp.ReplaceAllVars (Strings.TrimSpace v)
                          else Strings.TrimSpace v) = Strings.TrimSpace v).
  { intros G. destruct (String.eqb G "windows"); [|reflexivity].
    apply replaceVars_no_dollar, H. }
  rewrite !Hv. reflexivity.
Qed.

Lemma readLines_no_dollar colors GOOS1 GOOS2 ls : forall st,
  Forall (fun l => Procfile.hasByte "$" l = false) ls ->
  readLines colors GOOS1 ls st = readLines colors GOOS2 ls st.
Proof.
  induction ls as [|line rest IH]; intros st HF; [reflexivity|].
  inversion HF as [|? ? Hl Hrest]; subst. cbn [readLines].
  rewrite (readLine_no_dollar colors GOOS1 GOOS2 line st Hl).
  destruct (readLine colors GOOS2 line st); cbn [mbind Run_bind]; auto.
Qed.

(** X20: the rewriting of [$NAME] on Windows only touches commands
    that have a [$]: a Procfile without that byte loads in the same way
    on every platform. *)
Theorem no_dollar_same_on_all_platforms colors GOOS1 GOOS2 fs cfg g content :
  ReadFile fs (Procfile cfg) = inr content ->
  Procfile.hasByte "$" content = false ->
  readProcfile colors GOOS1 fs cfg g = readProcfile colors GOOS2 fs cfg g.
Proof.
  intros HR H. unfold readProcfile. rewrite HR.
  destruct (Stat fs (Procfile cfg)); [reflexivity|].
  rewrite (readLines_no_dollar colors GOOS1 GOOS2); [reflexivity|].
  apply Split_hasByte, H.
Qed.

Lemma no_dollar_same_on_all_platforms_witness :
  readProcfile Sample.palette "windows" Fixture.fs Fixture.cfg Sample.noGlobals
  = readProcfile Sample.palette "linux" Fixture.fs Fixture.cfg Sample.noGlobals.
Proof.
  apply (no_dollar_same_on_all_platforms Sample.palette "windows" "linux"
           Fixture.fs Fixture.cfg Sample.noGlobals Sample.webWorker); reflexivity.
Defined.

(** * More on [start], the default port and panics *)

(** X21: without process names ([cfg.Args] holds at most the command)
    [start] hands [startProcs] the registry and the
    [maxProcNameLength] exactly as [readProcfile] left them, and
    returns what [startProcs] returns. *)
Theorem start_without_names colors GOOS (OS : Type)
    (startProcs : Config -> Globals -> OS -> Run (option error * Globals * OS))
    fs cfg g (os : OS) cfg' g' :
  readProcfile colors GOOS fs cfg g = Done (None, cfg', g') ->
  (length (Args cfg) <= 1)%nat ->
  start colors GOOS startProcs fs cfg g os
  = ('(procsErr, g2, os2) ← startProcs cfg' g' os; Done (procsErr, cfg', g2, os2)).
Proof.
  intros Hr Hl.
  pose proof (readProcfile_ok _ _ _ _ _ _ _ Hr) as (_ & _ & _ & _ & _ & _ & Ha').
  unfold start. rewrite Hr. cbn [mbind Run_bind].
  assert (E : (1 <? Z.of_nat (length (Args cfg'))) = false).
  { rewrite Ha'. apply Z.ltb_ge. lia. }
  rewrite E. reflexivity.
Qed.

Lemma start_without_names_witness :
  start Sample.palette "linux" (Supervisor.startProcs (fun _ _ => Some 1))
    Fixture.fs Fixture.cfg Sample.noGlobals []
  = ('(procsErr, g2, os2) ←
       Supervisor.startProcs (fun _ _ => Some 1) (fst Fixture.once) (snd Fixture.once) [];
     Done (procsErr, fst Fixture.once, g2, os2)).
Proof.
  apply (start_without_names Sample.palette "linux" (list Supervisor.Instance)
           (Supervisor.startProcs (fun _ _ => Some 1))
           Fixture.fs Fixture.cfg Sample.noGlobals []).
  - vm_compute. reflexivity.
  - vm_compute. lia.
Defined.

(** X22: a GOREMAN_RPC_PORT that [Atoi] rejects (empty, not a number,
    out of the range of [int]) leaves the default port at 8555, and a
    negative one wraps around: the port is 2^64 + i. *)
Theorem defaultPort_edge_cases (env : Env) s :
  LookupEnv env "GOREMAN_RPC_PORT" = Some s ->
  match Strconv.Atoi s with
  | None => defaultPort env = 8555
  | Some i => i < 0 -> defaultPort env = Uint.modulus + i
  end.
Proof.
  intros H.
  assert (Hd : defaultPort env
               = if negb (String.eqb s EmptyString)
                 then match Strconv.Atoi s with
                      | Some i => Uint.of_int i
                      | None => 8555
                      end
                 else 8555).
  { unfold defaultPort, Getenv. unfold LookupEnv in H. rewrite H. reflexivity. }
  rewrite Hd. clear Hd H.
  destruct (Strconv.Atoi s) as [i|] eqn:E.
  - intros Hi. destruct s as [|c r]; [discriminate|].
    change (negb (String.eqb (String c r) EmptyString)) with true. cbv iota.
    unfold Strconv.Atoi in E.
    destruct (match String c r with
              | String "-"%char r0 => option_map Z.opp (Strconv.unsigned r0)
              | String "+"%char r0 => Strconv.unsigned r0
              | _ => Strconv.unsigned (String c r)
              end) as [j|]; [|discriminate].
    destruct (Int.in_rangeb j) eqn:Er; [|discriminate]. injection E as ->.
    unfold Int.in_rangeb, Int.min in Er. apply andb_true_iff in Er as [Er _].
    apply Z.leb_le in Er. unfold Uint.of_int, Uint.modulus, Uint.bits.
    rewrite <- (Z.mod_add i 1 (2 ^ 64)) by lia.
    rewrite Z.mod_small by lia. lia.
  - destruct (negb (String.eqb s EmptyString)); reflexivity.
Qed.

Lemma defaultPort_edge_cases_witness :
  defaultPort {[ "GOREMAN_RPC_PORT" := "-1" ]} = Uint.modulus + -1
  /\ defaultPort {[ "GOREMAN_RPC_PORT" := "80a" ]} = 8555.
Proof.
  pose proof (defaultPort_edge_cases {[ "GOREMAN_RPC_PORT" := "-1" ]} "-1") as H1.
  pose proof (defaultPort_edge_cases {[ "GOREMAN_RPC_PORT" := "80a" ]} "80a") as H2.
  change (Strconv.Atoi "-1") with (Some (-1)) in H1.
  change (Strconv.Atoi "80a") with (@None Z) in H2.
  split.
  - apply H1; [reflexivity|lia].
  - apply H2. reflexivity.
Defined.

(** X23: with a palette that is not empty, [readProcfile] returns (with
    or without an error) whenever the file cannot be read or none of
    its lines begins with [:]; it neither panics nor exits. *)
Theorem readProcfile_returns colors GOOS fs cfg g :
  colors <> [] ->
  (forall content, ReadFile fs (Procfile cfg) = inr content ->
     Forall (fun l => Procfile.startsWith ":" l = false) (Procfile.lines content)) ->
  exists err cfg' g', readProcfile colors GOOS fs cfg g = Done (err, cfg', g').
Proof.
  intros Hc H. unfold readProcfile.
  destruct (Stat fs (Procfile cfg)) as [e|]; [destruct (IsNotExist e); eauto|].
  destruct (ReadFile fs (Procfile cfg)) as [e|content]; [eauto|].
  destruct (readLines_total colors GOOS (Strings.Split content "010")
              cfg (mkGlobals [] (maxProcNameLength g)) 0) as [[[cfg1 g1] i1] E].
  - apply (H content eq_refl).
  - intros _. destruct colors; [contradiction|]. cbn [length]. lia.
  - rewrite E. cbn [mbind Run_bind].
    destruct (Z.of_nat (length (procs g1)) =? 0); eauto.
Qed.

Lemma readProcfile_returns_witness :
  exists err cfg' g',
    readProcfile Sample.palette "linux" (Sample.oneFile "Procfile" Sample.twiceWeb)
      Fixture.cfg Sample.noGlobals = Done (err, cfg', g').
Proof.
  apply (readProcfile_returns Sample.palette "linux"
           (Sample.oneFile "Procfile" Sample.twiceWeb) Fixture.cfg Sample.noGlobals).
  - discriminate.
  - intros content [= <-]. vm_compute. repeat constructor.
Defined.
